(** * MapReduce exercises: the mapper and reducer scripts

    A shallow embedding of the streaming scripts under [exercises/]: the
    item mapper of exercise 2, the time-bucket mapper of exercise 5 and
    the four reducers (exercise 3: max per key, exercise 4: count per key,
    exercise 5: sum per key, exercise 6: grand total), and of the
    deterministic parts of the dataset generator.

    Every script reads [sys.stdin] line by line and prints to stdout.  A
    script is modelled as a function from the list of input lines to what
    it printed together with how it ended: normally, or by an uncaught
    exception.  Numbers are Python's: unbounded [int] and binary64
    [float]; the parsers [float] and [int] are parameters, and so is
    every random draw of the generator.

    The file has the scripts and the generator first, then the Aggregator
    of the specification they are compared with, then the properties:
    what the reducers do with malformed lines and unparseable measures,
    the flush at the end of the stream, the first group of the max
    reducer, the mapper on timestamps without a time of day, the grand
    total, the sum reducer against the specification's scheme, the one
    Result per key of the three grouped reducers; then the mappers line
    by line, the lines that pass from a mapper to the reducers, how the
    reducers end, and what the generator writes. *)

From Stdlib Require Import ZArith List String Ascii Bool Lia Sorted.
From Stdlib Require Import Uint63 Floats.
Import ListNotations.

Open Scope string_scope.
Open Scope list_scope.

(** ** Strings: [str.strip] and [str.split] *)

Definition tab : ascii := "009"%char.
Definition newline : ascii := "010"%char.
Definition space : ascii := " "%char.
Definition colon : ascii := ":"%char.

(** The characters [str.strip()] removes when called with no argument,
    the ASCII whitespace: space, tab, line feed, vertical tab, form feed,
    carriage return. *)
Definition is_space (c : ascii) : bool :=
  let n := nat_of_ascii c in
  (n =? 32)%nat || ((9 <=? n)%nat && (n <=? 13)%nat).

Fixpoint lstrip (s : string) : string :=
  match s with
  | EmptyString => EmptyString
  | String c s' => if is_space c then lstrip s' else s
  end.

Fixpoint rstrip (s : string) : string :=
  match s with
  | EmptyString => EmptyString
  | String c s' =>
      match rstrip s' with
      | EmptyString => if is_space c then EmptyString else String c EmptyString
      | r => String c r
      end
  end.

Definition strip (s : string) : string := lstrip (rstrip s).

(** [s.split(sep)] for a one-character separator: never an empty list,
    [''.split(sep)] is [['']]. *)
Fixpoint split (sep : ascii) (s : string) : list string :=
  match s with
  | EmptyString => [EmptyString]
  | String c s' =>
      if Ascii.eqb c sep then EmptyString :: split sep s'
      else match split sep s' with
           | f :: fs => String c f :: fs
           | [] => [String c EmptyString]
           end
  end.

(** [line.strip().split("\t")], the first statement of every loop body. *)
Definition fields (line : string) : list string := split tab (strip line).

(** Lines as the framework hands them over: fields joined by tabs, ended
    by a line feed. *)
Definition pair_line (k v : string) : string :=
  k ++ String tab v ++ String newline EmptyString.

Definition record_line (fs : list string) : string :=
  String.concat (String tab EmptyString) fs ++ String newline EmptyString.

(** ** Python numbers

    The accumulators start as the [int] literals [-1] and [0] and become
    [float] once a parsed measure is stored or added; [count] stays an
    [int].  Floats are IEEE 754 binary64, as in CPython. *)

Inductive pynum : Type :=
| PyInt (z : Z)
| PyFloat (f : float).

(** The conversion Python applies to the [int] operand of a mixed
    operation (exact for the literals of the scripts; written for
    magnitudes below [2^63]). *)
Definition float_of_int (z : Z) : float :=
  match z with
  | Z0 => 0%float
  | Zpos _ => PrimFloat.of_uint63 (Uint63.of_Z z)
  | Zneg p => (- PrimFloat.of_uint63 (Uint63.of_Z (Zpos p)))%float
  end.

Definition to_float (a : pynum) : float :=
  match a with
  | PyInt z => float_of_int z
  | PyFloat f => f
  end.

(** [a + b] *)
Definition py_add (a b : pynum) : pynum :=
  match a, b with
  | PyInt x, PyInt y => PyInt (x + y)
  | _, _ => PyFloat (to_float a + to_float b)%float
  end.

(** [a > b] *)
Definition py_gt (a b : pynum) : bool :=
  match a, b with
  | PyInt x, PyInt y => (y <? x)%Z
  | _, _ => PrimFloat.ltb (to_float b) (to_float a)
  end.

(** The parsing built-ins the scripts call and the repository does not
    define: [float(s)] and [int(s)], [None] standing for [ValueError]. *)
Class Builtins : Type := {
  py_float : string -> option float;
  py_int : string -> option Z
}.

(** ** Script results: printed lines, then an exception or a value *)

Inductive exn : Type := ValueError | IndexError | TypeError.

(** One printed line [key + "\t" + str(value)]. *)
Record Result : Type := mkResult { key : string; value : pynum }.

Definition M (O A : Type) : Type := (list O * (exn + A))%type.

Definition ret {O A} (a : A) : M O A := ([], inr a).
Definition raise {O A} (e : exn) : M O A := ([], inl e).
Definition print {O} (o : O) : M O unit := ([o], inr tt).

Definition bind {O A B} (m : M O A) (f : A -> M O B) : M O B :=
  match m with
  | (out, inl e) => (out, inl e)
  | (out, inr a) => let (out', r) := f a in (out ++ out', r)
  end.

Notation "x <- m ;; k" := (bind m (fun x => k))
  (at level 61, m at next level, right associativity).
Notation "m ;;; k" := (bind m (fun _ => k))
  (at level 61, right associativity).

(** [for line in sys.stdin: body], the loop variables threaded through. *)
Fixpoint for_each {O S} (body : S -> string -> M O S) (st : S)
    (lines : list string) : M O S :=
  match lines with
  | [] => ret st
  | line :: rest => st' <- body st line ;; for_each body st' rest
  end.

Definition printed {O A} (m : M O A) : list O := fst m.
Definition aborted {O A} (m : M O A) : bool :=
  match snd m with inl _ => true | inr _ => false end.

(** Text of one printed Result and of a whole run, [str] being Python's
    rendering of a number. *)
Definition render (str : pynum -> string) (r : Result) : string :=
  key r ++ String tab (str (value r)).

Definition stdout {A} (str : pynum -> string) (m : M Result A) : list string :=
  map (render str) (printed m).

(** The tests on [oldKey], which holds [None] or a string. *)
Definition truthy (k : option string) : bool :=
  match k with
  | Some s => negb (s =? "")
  | None => false
  end.

Definition differs (k : option string) (thisKey : string) : bool :=
  match k with
  | Some s => negb (s =? thisKey)
  | None => true
  end.

Definition is_not_None (k : option string) : bool :=
  match k with
  | Some _ => true
  | None => false
  end.

(** [print(oldKey + "\t" + str(v))]; concatenating [None] is a
    [TypeError]. *)
Definition print_result (k : option string) (v : pynum) : M Result unit :=
  match k with
  | Some s => print (mkResult s v)
  | None => raise TypeError
  end.

(** ** exercise2/mapper.py: the item mapper *)

Module Exercise2.
Section Mapper.
Context {B : Builtins}.

(** The loop body: blank lines and lines that do not split in five are
    skipped, and so is a line whose cost [float] rejects; the unpacking
    cannot fail after the length test. *)
Definition mapper_body (_ : unit) (line : string) : M string unit :=
  let line := strip line in
  if line =? "" then ret tt
  else
    let data := split tab line in
    if negb (List.length data =? 5)%nat then ret tt
    else
      match data with
      | [datetime; store; item; cost; payment] =>
          match py_float cost with
          | None => ret tt
          | Some _ => print (item ++ String tab cost)%string
          end
      | _ => ret tt
      end.

Definition mapper (stdin : list string) : M string unit :=
  for_each mapper_body tt stdin.
End Mapper.
End Exercise2.

(** ** exercise3/reducer.py: the largest sale per key *)

Module Exercise3.
Section Reducer.
Context {B : Builtins}.

Record vars : Type := mkVars { maxSale : pynum; oldKey : option string }.

(** [maxSale = -1] and [oldKey = None], whatever the names held. *)
Definition start (env : vars) : vars :=
  let env := mkVars (PyInt (-1)) (oldKey env) in
  mkVars (maxSale env) None.

Definition body (st : vars) (line : string) : M Result vars :=
  match fields line with
  | [thisKey; thisSale] =>
      match py_float thisSale with
      | None => raise ValueError
      | Some f =>
          let thisSale := PyFloat f in
          if truthy (oldKey st) && differs (oldKey st) thisKey then
            print_result (oldKey st) (maxSale st) ;;;
            ret (mkVars thisSale (Some thisKey))
          else
            ret (mkVars (if py_gt thisSale (maxSale st) then thisSale
                         else maxSale st)
                        (Some thisKey))
      end
  | _ => ret st
  end.

Definition finish (st : vars) : M Result unit :=
  if is_not_None (oldKey st) then print_result (oldKey st) (maxSale st)
  else ret tt.

Definition reducer (env : vars) (stdin : list string) : M Result unit :=
  st <- for_each body (start env) stdin ;; finish st.
End Reducer.
End Exercise3.

(** ** exercise4/reducer.py: the count per key *)

Module Exercise4.
Section Reducer.
Context {B : Builtins}.

Record vars : Type := mkVars { count : pynum; oldKey : option string }.

(** [count = 0] and [oldKey = None]. *)
Definition start (env : vars) : vars :=
  let env := mkVars (PyInt 0) (oldKey env) in
  mkVars (count env) None.

Definition body (st : vars) (line : string) : M Result vars :=
  match fields line with
  | [thisKey; thisCount] =>
      match py_int thisCount with
      | None => raise ValueError
      | Some z =>
          let thisCount := PyInt z in
          if truthy (oldKey st) && differs (oldKey st) thisKey then
            print_result (oldKey st) (count st) ;;;
            ret (mkVars thisCount (Some thisKey))
          else
            ret (mkVars (py_add (count st) thisCount) (Some thisKey))
      end
  | _ => ret st
  end.

Definition finish (st : vars) : M Result unit :=
  if is_not_None (oldKey st) then print_result (oldKey st) (count st)
  else ret tt.

Definition reducer (env : vars) (stdin : list string) : M Result unit :=
  st <- for_each body (start env) stdin ;; finish st.
End Reducer.
End Exercise4.

(** ** exercise5: the hour mapper and the sum per key *)

Module Exercise5.
Section Mapper.
Context {B : Builtins}.

(** The loop body of mapper.py.  Only [ValueError] is caught by the
    [try]; the subscript [[1]] raises [IndexError]. *)
Definition mapper_body (_ : unit) (line : string) : M string unit :=
  let line := strip line in
  if line =? "" then ret tt
  else
    let data := split tab line in
    if negb (List.length data =? 5)%nat then ret tt
    else
      match data with
      | [datetime; store; item; cost; payment] =>
          match nth_error (split space datetime) 1 with
          | None => raise IndexError
          | Some time =>
              match nth_error (split colon time) 0 with
              | None => raise IndexError
              | Some hour =>
                  match py_float cost with
                  | None => ret tt
                  | Some _ => print (hour ++ String tab cost)%string
                  end
              end
          end
      | _ => ret tt
      end.

Definition mapper (stdin : list string) : M string unit :=
  for_each mapper_body tt stdin.
End Mapper.

Section Reducer.
Context {B : Builtins}.

Record vars : Type := mkVars { salesTotal : pynum; oldKey : option string }.

(** [salesTotal = 0] and [oldKey = None]. *)
Definition start (env : vars) : vars :=
  let env := mkVars (PyInt 0) (oldKey env) in
  mkVars (salesTotal env) None.

(** At a key change the total is printed and reset to [0]; the measure
    is parsed and added after that, whatever the branch. *)
Definition body (st : vars) (line : string) : M Result vars :=
  match fields line with
  | [thisKey; thisSale] =>
      st1 <- (if truthy (oldKey st) && differs (oldKey st) thisKey then
                print_result (oldKey st) (salesTotal st) ;;;
                ret (mkVars (PyInt 0) (Some thisKey))
              else ret st) ;;
      let st2 := mkVars (salesTotal st1) (Some thisKey) in
      match py_float thisSale with
      | None => raise ValueError
      | Some f =>
          ret (mkVars (py_add (salesTotal st2) (PyFloat f)) (oldKey st2))
      end
  | _ => ret st
  end.

Definition finish (st : vars) : M Result unit :=
  if is_not_None (oldKey st) then print_result (oldKey st) (salesTotal st)
  else ret tt.

Definition reducer (env : vars) (stdin : list string) : M Result unit :=
  st <- for_each body (start env) stdin ;; finish st.
End Reducer.
End Exercise5.

(** ** exercise6/reducer.py: the grand total *)

Module Exercise6.
Section Reducer.
Context {B : Builtins}.

Record vars : Type := mkVars { total : pynum }.

(** [total = 0]. *)
Definition start (env : vars) : vars := mkVars (PyInt 0).

Definition body (st : vars) (line : string) : M Result vars :=
  match fields line with
  | [_; measure] =>
      match py_float measure with
      | None => raise ValueError
      | Some f => ret (mkVars (py_add (total st) (PyFloat f)))
      end
  | _ => ret st
  end.

Definition finish (st : vars) : M Result unit :=
  print (mkResult "TOTAL_ABSOLUTO" (total st)).

Definition reducer (env : vars) (stdin : list string) : M Result unit :=
  st <- for_each body (start env) stdin ;; finish st.
End Reducer.
End Exercise6.

(** ** generator/sales_generator.py: the deterministic parts

    The generator draws from [random]; each draw is a parameter here: the
    value [random.uniform] returned, the row [generate_row] returned at
    its n-th call.  File contents are the concatenation of the strings
    written; the progress lines and timing summaries the functions print
    on stdout carry clock readings and are left out. *)

Set Warnings "-inexact-float".

Module Generator.

(** [a >= b] and [a < b] *)
Definition py_ge (a b : pynum) : bool :=
  match a, b with
  | PyInt x, PyInt y => (y <=? x)%Z
  | _, _ => PrimFloat.leb (to_float b) (to_float a)
  end.

Definition py_lt (a b : pynum) : bool :=
  match a, b with
  | PyInt x, PyInt y => (x <? y)%Z
  | _, _ => PrimFloat.ltb (to_float a) (to_float b)
  end.

(** [sum(weights)] *)
Definition py_sum (ws : list pynum) : pynum := fold_left py_add ws (PyInt 0).

(** [choices[-1]] *)
Definition last_choice {A} (choices : list A) : exn + A :=
  match rev choices with
  | c :: _ => inr c
  | [] => inl IndexError
  end.

Section Efficient.
(** The value of [random.uniform(a, b)] at the call. *)
Variable uniform : pynum -> pynum -> float.

(** The loop of [weighted_choice] over [zip(choices, weights)]: the first
    choice at which the running weight reaches [r]. *)
Fixpoint scan {A} (r upto : pynum) (cw : list (A * pynum)) : option A :=
  match cw with
  | [] => None
  | (c, w) :: rest =>
      if py_ge (py_add upto w) r then Some c
      else scan r (py_add upto w) rest
  end.

Definition weighted_choice {A} (choices : list A) (weights : list pynum)
  : exn + A :=
  let total := py_sum weights in
  let r := PyFloat (uniform (PyInt 0) total) in
  match scan r (PyInt 0) (combine choices weights) with
  | Some c => inr c
  | None => last_choice choices
  end.

Definition cities_data : list (string * pynum) :=
  [("A Corunha", PyFloat 1.5); ("Vigo", PyFloat 1.5); ("Santiago", PyFloat 1.3);
   ("Ourense", PyFloat 1.2); ("Lugo", PyFloat 1.2); ("Pontevedra", PyFloat 1.2);
   ("Ferrol", PyFloat 1.0); ("Naron", PyFloat 1.0); ("Oleiros", PyFloat 1.0);
   ("Carballo", PyFloat 1.0); ("Arteixo", PyFloat 1.0); ("Ribeira", PyFloat 1.0);
   ("Cangas", PyFloat 0.8); ("Marin", PyFloat 0.8); ("Burela", PyFloat 0.7);
   ("Sarria", PyFloat 0.7); ("Monforte", PyFloat 0.6); ("Chantada", PyFloat 0.6);
   ("Foz", PyFloat 0.5); ("Mondonhedo", PyFloat 0.5)].

Definition cities : list string := map fst cities_data.
Definition city_weights : list pynum := map snd cities_data.

Definition hour_weights : list pynum :=
  map PyFloat [0.06; 0.08; 0.10; 0.15; 0.09; 0.05; 0.04; 0.06; 0.10; 0.16;
               0.08; 0.03]%float.

(** [range(9, 21)] *)
Definition hours : list Z := [9; 10; 11; 12; 13; 14; 15; 16; 17; 18; 19; 20]%Z.

Definition LOW_PRICE_THRESHOLD : pynum := PyFloat 50.0.
Definition HIGH_PRICE_THRESHOLD : pynum := PyFloat 300.0.

Definition generate_city : exn + string := weighted_choice cities city_weights.

Definition generate_hour : exn + Z := weighted_choice hours hour_weights.

Definition low_methods : list string :=
  ["cash"; "efectivo"; "bizum"; "visa"; "mastercard"].
Definition high_methods : list string :=
  ["transferencia"; "visa"; "mastercard"; "paypal"; "cheque"].
Definition medium_methods : list string :=
  ["visa"; "mastercard"; "metalico"; "efectivo"; "bizum"].

Definition generate_payment_method (price : pynum) : exn + string :=
  if py_lt price LOW_PRICE_THRESHOLD then
    weighted_choice low_methods
      (map PyFloat [0.40; 0.30; 0.15; 0.10; 0.05]%float)
  else if py_gt price HIGH_PRICE_THRESHOLD then
    weighted_choice high_methods
      (map PyFloat [0.35; 0.25; 0.20; 0.10; 0.10]%float)
  else
    weighted_choice medium_methods
      (map PyFloat [0.25; 0.20; 0.15; 0.15; 0.10]%float).
End Efficient.

Inductive arith_error : Type := ZeroDivisionError.

(** [range(n)] *)
Definition range (n : Z) : list Z := map Z.of_nat (seq 0 (Z.to_nat n)).

Section Files.
(** The row [generate_row] returns at its n-th call, counted from 0. *)
Variable row : nat -> string.

Definition LF : string := String newline EmptyString.

(** One batch of [generate_to_file]: the file so far and the number of
    rows generated so far, then the batch joined by line feeds, then a
    line feed unless the batch is the last. *)
Definition write_batch (num_rows batch_size : Z) (st : string * nat)
    (batch_num : Z) : string * nat :=
  let (file, generated) := st in
  let batch_start := (batch_num * batch_size)%Z in
  let batch_end := Z.min (batch_start + batch_size) num_rows in
  let batch_size_actual := (batch_end - batch_start)%Z in
  let batch_rows := map row (seq generated (Z.to_nat batch_size_actual)) in
  let file := (file ++ String.concat LF batch_rows)%string in
  let file := if (batch_end <? num_rows)%Z then (file ++ LF)%string else file in
  (file, (generated + Z.to_nat batch_size_actual)%nat).

(** What [generate_to_file] writes to the file. *)
Definition generate_to_file (num_rows batch_size : Z) : arith_error + string :=
  if (batch_size =? 0)%Z then inl ZeroDivisionError
  else
    let batches := ((num_rows + batch_size - 1) / batch_size)%Z in
    inr (fst (fold_left (write_batch num_rows batch_size) (range batches)
                ("", 0%nat))).

(** The loop of [generate_simple_file]: each row is written with its line
    feed, then [(i + 1) % (num_rows // 10)] is computed for the progress
    test. *)
Fixpoint simple_rows (num_rows : Z) (indices : list Z) (file : string)
  : string * (arith_error + unit) :=
  match indices with
  | [] => (file, inr tt)
  | i :: rest =>
      let file := (file ++ row (Z.to_nat i) ++ LF)%string in
      if (num_rows / 10 =? 0)%Z then (file, inl ZeroDivisionError)
      else simple_rows num_rows rest file
  end.

Definition generate_simple_file (num_rows : Z) : string * (arith_error + unit) :=
  simple_rows num_rows (range num_rows) "".
End Files.

(** The hour [generate_datetime_str] computes from the draw
    [r = random.randint(1, 100)]: the first hour whose cumulative weight
    reaches [r], and 9 when none does. *)
Definition simple_hour_weights : list Z := [6; 8; 10; 15; 9; 5; 4; 6; 10; 16; 8; 3]%Z.

Fixpoint hour_scan (r cumulative i : Z) (ws : list Z) (hour : Z) : Z :=
  match ws with
  | [] => hour
  | weight :: rest =>
      let cumulative := (cumulative + weight)%Z in
      if (r <=? cumulative)%Z then (9 + i)%Z
      else hour_scan r cumulative (i + 1)%Z rest hour
  end.

Definition datetime_str_hour (r : Z) : Z := hour_scan r 0 0 simple_hour_weights 9.
End Generator.

(** ** Decimal literals

    [float] and [int] on plain decimal literals, an optional sign and
    digits, for [float] an optional point and more digits: the inputs the
    examples below run the scripts on.  The quotient of two exactly
    represented integers is rounded once, as [float] rounds the literal. *)

Definition digit (c : ascii) : option Z :=
  let n := Z.of_nat (nat_of_ascii c) in
  if (48 <=? n)%Z && (n <=? 57)%Z then Some (n - 48)%Z else None.

Fixpoint digits_from (acc : Z) (s : string) : option Z :=
  match s with
  | EmptyString => Some acc
  | String c s' =>
      match digit c with
      | Some d => digits_from (10 * acc + d)%Z s'
      | None => None
      end
  end.

Definition digits (s : string) : option Z :=
  match s with
  | EmptyString => None
  | _ => digits_from 0%Z s
  end.

Definition unsigned_float (s : string) : option float :=
  match split "."%char s with
  | [i] => option_map float_of_int (digits i)
  | [i; f] =>
      match digits (i ++ f), digits f with
      | Some m, Some _ =>
          Some (float_of_int m / float_of_int (10 ^ Z.of_nat (String.length f)))%float
      | _, _ => None
      end
  | _ => None
  end.

Definition signed {A} (neg : A -> A) (parse : string -> option A)
    (s : string) : option A :=
  match s with
  | String "-"%char s' => option_map neg (parse s')
  | String "+"%char s' => parse s'
  | _ => parse s
  end.

Definition decimal : Builtins :=
  {| py_float := signed PrimFloat.opp unsigned_float;
     py_int := signed Z.opp digits |}.


(** The variables before a script's first statement, for the examples. *)
Definition blank3 : Exercise3.vars := Exercise3.mkVars (PyInt 0) None.
Definition blank4 : Exercise4.vars := Exercise4.mkVars (PyInt 0) None.
Definition blank5 : Exercise5.vars := Exercise5.mkVars (PyInt 0) None.
Definition blank6 : Exercise6.vars := Exercise6.mkVars (PyInt 0).

(** ** Auxiliary notions for the statements *)

Fixpoint contains (c : ascii) (s : string) : bool :=
  match s with
  | EmptyString => false
  | String a s' => Ascii.eqb a c || contains c s'
  end.

(** The key of the last line that splits in two, if any: the group left
    open at the end of the stream. *)
Definition next_key (k : option string) (line : string) : option string :=
  match fields line with
  | [thisKey; _] => Some thisKey
  | _ => k
  end.

Definition open_key (stdin : list string) : option string :=
  fold_left next_key stdin None.

Definition two_fields (line : string) : bool :=
  (List.length (fields line) =? 2)%nat.

(** What the closing [if oldKey != None: print(...)] adds to the output. *)
Definition flush (k : option string) (v : pynum) : list Result :=
  match k with
  | Some s => [mkResult s v]
  | None => []
  end.

(** The measures of the lines that split in two, as [float] reads them,
    in stream order. *)
Definition measure {B : Builtins} (line : string) : list pynum :=
  match fields line with
  | [_; m] =>
      match py_float m with
      | Some f => [PyFloat f]
      | None => []
      end
  | _ => []
  end.

Definition measures {B : Builtins} (stdin : list string) : list pynum :=
  flat_map measure stdin.

(** No line that splits in two has a measure [float] rejects. *)
Definition parses_float {B : Builtins} (line : string) : bool :=
  match fields line with
  | [_; m] =>
      match py_float m with
      | Some _ => true
      | None => false
      end
  | _ => true
  end.

(** [x > -1] for a float [x] and the [int] literal. *)
Definition above_minus_one (f : float) : bool := py_gt (PyFloat f) (PyInt (-1)).

(** The float [-0.0]. *)
Definition is_negative_zero (f : float) : bool :=
  match Prim2SF f with
  | S754_zero true => true
  | _ => false
  end.

(** Lines that do not split in two, and pairs whose measure parses as a
    float other than [-0.0]. *)
Definition sum_ready {B : Builtins} (line : string) : bool :=
  match fields line with
  | [_; m] =>
      match py_float m with
      | Some f => negb (is_negative_zero f)
      | None => false
      end
  | _ => true
  end.

(** ** The Aggregator of the specification

    The state machine of section 4.2 of the specification, written from
    its words and not from a script: two states, a transition per pair
    that initialises, folds or emits and re-initialises, a discard for
    lines that do not split in two, a fatal error for a measure outside
    the domain, and the flush at the end of the stream.  The scripts are
    compared with it. *)

Module SpecAggregator.
Section Scheme.
Context {B : Builtins}.

Inductive state : Type :=
| NO_GROUP
| IN_GROUP (k : string) (acc : pynum).

(** A combine function: numeric domain, initializer, fold operator. *)
Record combine : Type := mkCombine {
  domain : string -> option pynum;
  initializer : pynum -> pynum;
  fold : pynum -> pynum -> pynum
}.

Definition float_domain (s : string) : option pynum :=
  option_map PyFloat (py_float s).

Definition int_domain (s : string) : option pynum :=
  option_map PyInt (py_int s).

(** The rows of the table: Initializer(v) = v for the three grouped
    queries; Fold(acc, v) is [v if v > acc else acc] or [acc + v]. *)
Definition max_per_key : combine :=
  mkCombine float_domain (fun v => v) (fun acc v => if py_gt v acc then v else acc).

Definition count_per_key : combine :=
  mkCombine int_domain (fun v => v) (fun acc v => py_add acc v).

Definition sum_per_key : combine :=
  mkCombine float_domain (fun v => v) (fun acc v => py_add acc v).

Definition transition (c : combine) (st : state) (k : string) (v : pynum)
  : M Result state :=
  match st with
  | NO_GROUP => ret (IN_GROUP k (initializer c v))
  | IN_GROUP k0 acc =>
      if k =? k0 then ret (IN_GROUP k0 (fold c acc v))
      else print (mkResult k0 acc) ;;; ret (IN_GROUP k (initializer c v))
  end.

Definition step (c : combine) (st : state) (line : string) : M Result state :=
  match fields line with
  | [k; m] =>
      match domain c m with
      | Some v => transition c st k v
      | None => raise ValueError
      end
  | _ => ret st
  end.

Definition end_of_stream (st : state) : M Result unit :=
  match st with
  | IN_GROUP k acc => print (mkResult k acc)
  | NO_GROUP => ret tt
  end.

Definition run (c : combine) (stdin : list string) : M Result unit :=
  st <- for_each (step c) NO_GROUP stdin ;; end_of_stream st.
End Scheme.
End SpecAggregator.

(** The script variables that stand for a state of the specification's
    Aggregator in the sum reducer: no key and the total [0], or the key
    and the accumulator. *)
Definition sum_vars (a : SpecAggregator.state) : Exercise5.vars :=
  match a with
  | SpecAggregator.NO_GROUP => Exercise5.mkVars (PyInt 0) None
  | SpecAggregator.IN_GROUP k acc => Exercise5.mkVars acc (Some k)
  end.

Definition keyed (a : SpecAggregator.state) : Prop :=
  match a with
  | SpecAggregator.NO_GROUP => True
  | SpecAggregator.IN_GROUP k _ => k <> ""
  end.

Definition fmap {O A C} (f : A -> C) (m : M O A) : M O C :=
  (fst m, match snd m with inl e => inl e | inr a => inr (f a) end).

(** ** Groups of a decoded stream *)

(** A line read as a pair with the domain of a combine function. *)
Definition decode (c : SpecAggregator.combine) (line : string)
  : option (string * pynum) :=
  match fields line with
  | [k; m] => option_map (pair k) (SpecAggregator.domain c m)
  | _ => None
  end.

(** The measures bearing a key, in stream order. *)
Definition measures_of (k : string) (ps : list (string * pynum)) : list pynum :=
  map snd (filter (fun p => fst p =? k) ps).

(** The distinct keys, each at its first occurrence. *)
Fixpoint distinct (ks : list string) : list string :=
  match ks with
  | [] => []
  | k :: ks' => k :: filter (fun k' => negb (k' =? k)) (distinct ks')
  end.

(** A combine function over the measures of one key: the initializer on
    the first, the fold over the others. *)
Definition combined (c : SpecAggregator.combine) (vs : list pynum) : pynum :=
  match vs with
  | [] => PyInt 0
  | v :: vs' => fold_left (SpecAggregator.fold c) vs' (SpecAggregator.initializer c v)
  end.

(** One Result per distinct key, in stream order. *)
Definition grouped (c : SpecAggregator.combine) (ps : list (string * pynum))
  : list Result :=
  map (fun k => mkResult k (combined c (measures_of k ps))) (distinct (map fst ps)).

(** What the Aggregator prints from an open group over the pairs left. *)
Fixpoint emit (c : SpecAggregator.combine) (k0 : string) (acc : pynum)
    (ps : list (string * pynum)) : list Result :=
  match ps with
  | [] => [mkResult k0 acc]
  | (k, v) :: ps' =>
      if k =? k0 then emit c k0 (SpecAggregator.fold c acc v) ps'
      else mkResult k0 acc :: emit c k (SpecAggregator.initializer c v) ps'
  end.

(** The sum as exercise 5 computes it: every group starts from the [int]
    [0], to which its first measure is added. *)
Definition sum_from_zero {B : Builtins} : SpecAggregator.combine :=
  SpecAggregator.mkCombine SpecAggregator.float_domain
    (fun v => py_add (PyInt 0) v) (fun acc v => py_add acc v).

(** The script variables that stand for a state of the Aggregator in the
    max and in the count reducer. *)
Definition max_vars (a : SpecAggregator.state) : Exercise3.vars :=
  match a with
  | SpecAggregator.NO_GROUP => Exercise3.mkVars (PyInt (-1)) None
  | SpecAggregator.IN_GROUP k acc => Exercise3.mkVars acc (Some k)
  end.

Definition count_vars (a : SpecAggregator.state) : Exercise4.vars :=
  match a with
  | SpecAggregator.NO_GROUP => Exercise4.mkVars (PyInt 0) None
  | SpecAggregator.IN_GROUP k acc => Exercise4.mkVars acc (Some k)
  end.

(** A group is open, under a key that is not empty. *)
Definition in_group (a : SpecAggregator.state) : Prop :=
  match a with
  | SpecAggregator.NO_GROUP => False
  | SpecAggregator.IN_GROUP k _ => k <> ""
  end.

(** The first measure of the stream is larger than [-1]. *)
Definition first_above_minus_one (ps : list (string * pynum)) : bool :=
  match ps with
  | [] => true
  | (_, v) :: _ => py_gt v (PyInt (-1))
  end.

(** The order of the external sort on the examples: byte-wise
    lexicographic. *)
Definition key_le (a b : string) : Prop := String.leb a b = true.

(** ** Lines between the stages *)

(** The first character is not whitespace; the last one is not. *)
Definition starts_nonspace (s : string) : bool :=
  match s with
  | EmptyString => false
  | String c _ => negb (is_space c)
  end.

Fixpoint ends_nonspace (s : string) : bool :=
  match s with
  | EmptyString => false
  | String c EmptyString => negb (is_space c)
  | String _ s' => ends_nonspace s'
  end.

(** What [print] writes for a string and the next stage reads as a line. *)
Definition as_line (s : string) : string := s ++ String newline EmptyString.

(** A record of exercise 5 whose timestamp has no space: the line on
    which the hour mapper stops. *)
Definition no_time (line : string) : bool :=
  match split tab (strip line) with
  | [datetime; _; _; _; _] =>
      negb (strip line =? "") && negb (contains space datetime)
  | _ => false
  end.

(** [int] accepts the measure of every line that splits in two. *)
Definition parses_int {B : Builtins} (line : string) : bool :=
  match fields line with
  | [_; m] =>
      match py_int m with
      | Some _ => true
      | None => false
      end
  | _ => true
  end.

(** The keys of a stream with adjacent repetitions dropped: one per
    maximal run of equal keys. *)
Fixpoint runs (ks : list string) : list string :=
  match ks with
  | [] => []
  | k :: ks' =>
      match ks' with
      | [] => [k]
      | k' :: _ => if k' =? k then runs ks' else k :: runs ks'
      end
  end.

(** The keys of the lines that split in two, in stream order. *)
Definition keys_of (stdin : list string) : list string :=
  flat_map (fun line => match fields line with
                        | [k; _] => [k]
                        | _ => []
                        end) stdin.

(** A key that may be missing, as a list. *)
Definition key_list (k : option string) : list string :=
  match k with
  | Some s => [s]
  | None => []
  end.

(** ** Rows of the generator *)

(** The keys of [self.categories]. *)
Definition categories : list string :=
  ["Alimentacion"; "Electronica"; "Ropa"; "Hogar"; "Juguetes"; "Deportes";
   "Libros"; "Musica"; "Cine"; "Jardineria"; "Ferreteria"; "Cosmetica";
   "Farmacia"; "Automocion"; "Mascotas"; "Moda hombre"; "Moda mujer";
   "Calzado"; "Complementos"; "Bebes"].

(** ["%s\t%s\t%s\t%s\t%s" % (dt, city, category, price, payment)], the
    row of [generate_row], its five values already rendered. *)
Definition format_row (dt city category price payment : string) : string :=
  String.concat (String tab EmptyString) [dt; city; category; price; payment].

(** No tab inside, no whitespace at either end. *)
Definition clean_field (s : string) : bool :=
  negb (contains tab s) && starts_nonspace s && ends_nonspace s.

(** * Properties *)

(** ** The result monad and the loop *)

Lemma bind_ret_l {O A C} (a : A) (f : A -> M O C) : bind (ret a) f = f a.
Proof. unfold bind, ret. destruct (f a). reflexivity. Qed.

Lemma bind_ret_r {O A} (m : M O A) : bind m ret = m.
Proof.
  destruct m as [out [e | a]]; simpl; [reflexivity |].
  rewrite app_nil_r. reflexivity.
Qed.

Lemma bind_assoc {O A C D} (m : M O A) (f : A -> M O C) (g : C -> M O D) :
  bind (bind m f) g = bind m (fun a => bind (f a) g).
Proof.
  destruct m as [out [e | a]]; simpl; [reflexivity |].
  destruct (f a) as [out1 [e1 | c]]; simpl; [reflexivity |].
  destruct (g c) as [out2 r]. rewrite app_assoc. reflexivity.
Qed.

Lemma bind_ext {O A C} (m : M O A) (f g : A -> M O C) :
  (forall a, f a = g a) -> bind m f = bind m g.
Proof.
  intros E. destruct m as [out [e | a]]; simpl; [reflexivity |].
  rewrite E. reflexivity.
Qed.

Lemma bind_ext_on {O A C} (m : M O A) (f g : A -> M O C) :
  (forall out a, m = (out, inr a) -> f a = g a) -> bind m f = bind m g.
Proof.
  intros E. destruct m as [out [e | a]]; simpl; [reflexivity |].
  rewrite (E out a eq_refl). reflexivity.
Qed.

Lemma bind_fmap {O A C D} (f : A -> C) (m : M O A) (g : C -> M O D) :
  bind (fmap f m) g = bind m (fun a => g (f a)).
Proof. destruct m as [out [e | a]]; reflexivity. Qed.

Lemma fmap_bind {O A C D} (f : C -> D) (m : M O A) (g : A -> M O C) :
  fmap f (bind m g) = bind m (fun a => fmap f (g a)).
Proof.
  destruct m as [out [e | a]]; simpl; [reflexivity |].
  destruct (g a) as [out' [e | c]]; reflexivity.
Qed.

Lemma bind_raises {O A C} (m : M O A) (f : A -> M O C) e :
  snd m = inl e -> snd (bind m f) = inl e.
Proof. destruct m as [out [e' | a]]; simpl; congruence. Qed.

Lemma bind_returns {O A C} (m : M O A) (f : A -> M O C) out a :
  m = (out, inr a) -> bind m f = (out ++ fst (f a), snd (f a)).
Proof. intros ->. simpl. destruct (f a). reflexivity. Qed.

Lemma aborted_bind {O A C} (m : M O A) (f : A -> M O C) :
  aborted m = true -> aborted (bind m f) = true.
Proof. destruct m as [out [e | a]]; simpl; [reflexivity | discriminate]. Qed.

Lemma aborted_bind_all {O A C} (m : M O A) (f : A -> M O C) :
  (forall a, aborted (f a) = true) -> aborted (bind m f) = true.
Proof.
  intros E. destruct m as [out [e | a]]; simpl; [reflexivity |].
  specialize (E a). unfold aborted in *. destruct (f a). exact E.
Qed.

Lemma for_each_app {O S} (body : S -> string -> M O S) st l1 l2 :
  for_each body st (l1 ++ l2)
  = (st' <- for_each body st l1 ;; for_each body st' l2).
Proof.
  revert st. induction l1 as [| line l1 IH]; intros st; cbn [app for_each].
  - rewrite bind_ret_l. reflexivity.
  - rewrite bind_assoc. apply bind_ext. intros st'. apply IH.
Qed.

(** A line the body skips can be dropped from the stream. *)
Lemma for_each_skip {O S} (body : S -> string -> M O S) line :
  (forall st, body st line = ret st) ->
  forall st pre post,
    for_each body st (pre ++ line :: post) = for_each body st (pre ++ post).
Proof.
  intros Hskip st pre post. rewrite !for_each_app. apply bind_ext.
  intros st'. cbn [for_each]. rewrite Hskip, bind_ret_l. reflexivity.
Qed.

(** A state property kept by every step that returns holds when the loop
    returns. *)
Lemma for_each_invariant {O S} (body : S -> string -> M O S) (P : S -> Prop) :
  (forall st line out st', P st -> body st line = (out, inr st') -> P st') ->
  forall lines st out st',
    P st -> for_each body st lines = (out, inr st') -> P st'.
Proof.
  intros Hstep lines. induction lines as [| line lines IH]; intros st out st' HP.
  - simpl. unfold ret. intros [= _ <-]. exact HP.
  - simpl. destruct (body st line) as [o1 [e | st1]] eqn:E; simpl.
    + discriminate.
    + destruct (for_each body st1 lines) as [o2 r] eqn:E2. intros [= _ ->].
      eapply IH; [eapply Hstep; eassumption | eassumption].
Qed.

(** ** Stripping and splitting *)

Lemma lstrip_head s c s' : lstrip s = String c s' -> is_space c = false.
Proof.
  induction s as [| a s IH]; simpl; [discriminate |].
  destruct (is_space a) eqn:E; [exact IH |].
  intros [= <- _]. exact E.
Qed.

Lemma strip_head line c s' : strip line = String c s' -> is_space c = false.
Proof. apply lstrip_head. Qed.

Lemma split_nonempty sep s : split sep s <> [].
Proof.
  destruct s as [| c s]; simpl; [discriminate |].
  destruct (Ascii.eqb c sep); [discriminate |].
  destruct (split sep s); discriminate.
Qed.

(** An empty first field before another one means the string starts with
    the separator. *)
Lemma split_empty_head sep s f fs :
  split sep s = EmptyString :: f :: fs -> exists s', s = String sep s'.
Proof.
  destruct s as [| c s]; simpl; [discriminate |].
  destruct (Ascii.eqb_spec c sep) as [-> | _].
  - intros _. eexists. reflexivity.
  - destruct (split sep s); discriminate.
Qed.

Lemma split_single sep s v : split sep s = [v] -> s = v /\ contains sep s = false.
Proof.
  revert v. induction s as [| c s IH]; intros v; simpl.
  - intros [= <-]. split; reflexivity.
  - destruct (Ascii.eqb c sep) eqn:E.
    + intros [= _ H]. destruct (split_nonempty _ _ H).
    + destruct (split sep s) as [| f fs] eqn:Es; [intros [= <-] | intros [= <- ->]].
      * destruct (split_nonempty _ _ Es).
      * destruct (IH f eq_refl) as [-> Hc]. split; [reflexivity | exact Hc].
Qed.

Lemma split_without sep s : contains sep s = false -> split sep s = [s].
Proof.
  induction s as [| c s IH]; simpl; [reflexivity |].
  destruct (Ascii.eqb c sep); simpl; [discriminate |].
  intros H. rewrite (IH H). reflexivity.
Qed.

Lemma lstrip_without c s : contains c s = false -> contains c (lstrip s) = false.
Proof.
  induction s as [| a s IH]; simpl; [reflexivity |].
  destruct (is_space a); simpl.
  - intros H. apply orb_false_elim in H. apply IH, H.
  - exact (fun H => H).
Qed.

Lemma rstrip_without c s : contains c s = false -> contains c (rstrip s) = false.
Proof.
  induction s as [| a s IH]; simpl; [reflexivity |].
  intros H. apply orb_false_elim in H. destruct H as [Ha Hs].
  specialize (IH Hs). destruct (rstrip s) as [| b r].
  - destruct (is_space a); simpl; [reflexivity | rewrite Ha; reflexivity].
  - simpl. rewrite Ha. exact IH.
Qed.

(** A leading whitespace character is stripped with the rest. *)
Lemma strip_leading c s : is_space c = true -> strip (String c s) = strip s.
Proof.
  intros Hc. unfold strip. simpl. destruct (rstrip s) as [| b r] eqn:E.
  - rewrite Hc. reflexivity.
  - simpl. rewrite Hc. reflexivity.
Qed.

(** The key of a line that splits in two is not empty. *)
Lemma fields_key_nonempty line k m : fields line = [k; m] -> k <> "".
Proof.
  unfold fields. intros H ->.
  destruct (split_empty_head _ _ _ _ H) as [s' Hs].
  apply strip_head in Hs. discriminate.
Qed.

(** A line that starts with the tab and holds no other one is left with
    a single field. *)
Lemma fields_empty_key line v :
  split tab line = [""; v] -> fields line = [strip v].
Proof.
  intros H. destruct (split_empty_head _ _ _ _ H) as [s' ->].
  simpl in H. change (Ascii.eqb tab tab) with true in H. injection H as H.
  apply split_single in H. destruct H as [-> Hc].
  unfold fields. rewrite strip_leading by reflexivity.
  apply split_without. unfold strip.
  apply lstrip_without, rstrip_without, Hc.
Qed.

Lemma for_each_aborts {O S} (body : S -> string -> M O S) line :
  (forall st, aborted (body st line) = true) ->
  forall st pre post, aborted (for_each body st (pre ++ line :: post)) = true.
Proof.
  intros Hab st pre post. rewrite for_each_app. apply aborted_bind_all.
  intros st'. cbn [for_each]. apply aborted_bind, Hab.
Qed.

Lemma raises_aborted {O A} (m : M O A) e : snd m = inl e -> aborted m = true.
Proof. unfold aborted. intros ->. reflexivity. Qed.

Lemma not_two_fields line :
  two_fields line = false -> forall k m, fields line <> [k; m].
Proof.
  unfold two_fields. intros H k m E. rewrite E in H. discriminate.
Qed.

Lemma next_key_skip k line : two_fields line = false -> next_key k line = k.
Proof.
  unfold two_fields, next_key.
  destruct (fields line) as [| a [| b [| c l]]]; simpl; try reflexivity.
  discriminate.
Qed.

Lemma fold_next_key_skip stdin k :
  forallb (fun l => negb (two_fields l)) stdin = true ->
  fold_left next_key stdin k = k.
Proof.
  revert k. induction stdin as [| line stdin IH]; intros k; simpl.
  - reflexivity.
  - intros H. apply andb_prop in H. destruct H as [H1 H2].
    apply negb_true_iff in H1. rewrite next_key_skip by exact H1.
    apply IH, H2.
Qed.

Lemma fold_next_key_some stdin k : exists k', fold_left next_key stdin (Some k) = Some k'.
Proof.
  revert k. induction stdin as [| line stdin IH]; intros k; simpl.
  - eexists. reflexivity.
  - unfold next_key at 2.
    destruct (fields line) as [| a [| b [| c l]]]; apply IH.
Qed.

(** No group is open exactly when no line split in two. *)
Lemma open_key_none stdin :
  open_key stdin = None <-> forallb (fun l => negb (two_fields l)) stdin = true.
Proof.
  unfold open_key. induction stdin as [| line stdin IH]; simpl.
  - split; reflexivity.
  - destruct (two_fields line) eqn:E; simpl.
    + assert (exists a, next_key None line = Some a) as [a ->].
      { unfold two_fields, next_key in *.
        destruct (fields line) as [| a [| b [| c l]]]; try discriminate.
        eexists. reflexivity. }
      destruct (fold_next_key_some stdin a) as [k' ->].
      split; discriminate.
    + rewrite next_key_skip by exact E. exact IH.
Qed.

(** The loop of a grouped reducer: a body that skips the lines which do
    not split in two and otherwise stores the line's key. *)
Section GroupedLoop.
Variables (S : Type) (body : S -> string -> M Result S) (okey : S -> option string).
Hypothesis body_skip :
  forall st line, two_fields line = false -> body st line = ret st.
Hypothesis body_key :
  forall st line k m out st',
    fields line = [k; m] -> body st line = (out, inr st') -> okey st' = Some k.

Lemma for_each_open_key stdin : forall st out st',
  for_each body st stdin = (out, inr st') ->
  okey st' = fold_left next_key stdin (okey st).
Proof.
  induction stdin as [| line stdin IH]; intros st out st'; simpl.
  - unfold ret. intros [= _ <-]. reflexivity.
  - destruct (body st line) as [o1 [e | st1]] eqn:E; simpl; [discriminate |].
    destruct (for_each body st1 stdin) as [o2 r] eqn:E2. intros [= _ ->].
    rewrite (IH _ _ _ E2). f_equal.
    destruct (two_fields line) eqn:T.
    + unfold two_fields, next_key in *.
      destruct (fields line) as [| a [| b [| c l]]] eqn:F; try discriminate.
      eapply body_key; eassumption.
    + rewrite next_key_skip by exact T. rewrite body_skip in E by exact T.
      unfold ret in E. congruence.
Qed.

Lemma for_each_key_truthy stdin st out st' :
  truthy (okey st) = is_not_None (okey st) ->
  for_each body st stdin = (out, inr st') ->
  truthy (okey st') = is_not_None (okey st').
Proof.
  apply (for_each_invariant body
           (fun s => truthy (okey s) = is_not_None (okey s))).
  intros s0 line o s1 HP E.
  destruct (two_fields line) eqn:T.
  - unfold two_fields in T.
    destruct (fields line) as [| k [| m [| c l]]] eqn:F; try discriminate.
    rewrite (body_key _ _ _ _ _ _ F E). simpl.
    apply fields_key_nonempty in F. apply String.eqb_neq in F.
    rewrite F. reflexivity.
  - rewrite body_skip in E by exact T. unfold ret in E.
    injection E as _ <-. exact HP.
Qed.

Lemma for_each_all_skipped stdin st :
  forallb (fun l => negb (two_fields l)) stdin = true ->
  for_each body st stdin = ret st.
Proof.
  induction stdin as [| line stdin IH]; simpl; [reflexivity |].
  intros H. apply andb_prop in H. destruct H as [H1 H2].
  apply negb_true_iff in H1. rewrite body_skip by exact H1.
  rewrite bind_ret_l. apply IH, H2.
Qed.
End GroupedLoop.

(** ** The loop bodies, case by case *)

Ltac fields_cases line :=
  let F := fresh "F" in
  destruct (fields line) as [| ? [| ? [| ? ?]]] eqn:F.

Section Facts3.
Import Exercise3.
Context {B : Builtins}.

Lemma body3_skip st line : two_fields line = false -> body st line = ret st.
Proof.
  unfold two_fields, body. fields_cases line; simpl; try reflexivity.
  discriminate.
Qed.

Lemma body3_key st line k m out st' :
  fields line = [k; m] -> body st line = (out, inr st') -> oldKey st' = Some k.
Proof.
  unfold body. intros ->. destruct (py_float m); [| discriminate].
  destruct (truthy (oldKey st) && differs (oldKey st) k).
  - destruct (oldKey st); simpl; [| discriminate]. intros [= _ <-]. reflexivity.
  - intros [= _ <-]. reflexivity.
Qed.

Lemma body3_raises st line k m :
  fields line = [k; m] -> py_float m = None -> body st line = raise ValueError.
Proof. unfold body. intros -> ->. reflexivity. Qed.
End Facts3.

Section Facts4.
Import Exercise4.
Context {B : Builtins}.

Lemma body4_skip st line : two_fields line = false -> body st line = ret st.
Proof.
  unfold two_fields, body. fields_cases line; simpl; try reflexivity.
  discriminate.
Qed.

Lemma body4_key st line k m out st' :
  fields line = [k; m] -> body st line = (out, inr st') -> oldKey st' = Some k.
Proof.
  unfold body. intros ->. destruct (py_int m); [| discriminate].
  destruct (truthy (oldKey st) && differs (oldKey st) k).
  - destruct (oldKey st); simpl; [| discriminate]. intros [= _ <-]. reflexivity.
  - intros [= _ <-]. reflexivity.
Qed.

Lemma body4_raises st line k m :
  fields line = [k; m] -> py_int m = None -> body st line = raise ValueError.
Proof. unfold body. intros -> ->. reflexivity. Qed.
End Facts4.

Section Facts5.
Import Exercise5.
Context {B : Builtins}.

Lemma body5_skip st line : two_fields line = false -> body st line = ret st.
Proof.
  unfold two_fields, body. fields_cases line; simpl; try reflexivity.
  discriminate.
Qed.

Lemma body5_key st line k m out st' :
  fields line = [k; m] -> body st line = (out, inr st') -> oldKey st' = Some k.
Proof.
  unfold body. intros ->.
  destruct (truthy (oldKey st) && differs (oldKey st) k).
  - destruct (oldKey st); simpl; [| discriminate].
    destruct (py_float m); simpl; [| discriminate]. intros [= _ <-]. reflexivity.
  - rewrite bind_ret_l. destruct (py_float m); [| discriminate].
    intros [= _ <-]. reflexivity.
Qed.

(** The total of the closing group may be printed before the measure
    is parsed; the exception follows all the same. *)
Lemma body5_raises st line k m :
  fields line = [k; m] -> py_float m = None ->
  snd (body st line) = inl ValueError.
Proof.
  unfold body. intros -> ->.
  destruct (oldKey st) as [k0 |]; simpl; [| reflexivity].
  destruct (negb (k0 =? "") && negb (k0 =? k)); reflexivity.
Qed.
End Facts5.

Section Facts6.
Import Exercise6.
Context {B : Builtins}.

Lemma body6_skip st line : two_fields line = false -> body st line = ret st.
Proof.
  unfold two_fields, body. fields_cases line; simpl; try reflexivity.
  discriminate.
Qed.

Lemma body6_raises st line k m :
  fields line = [k; m] -> py_float m = None -> body st line = raise ValueError.
Proof. unfold body. intros -> ->. reflexivity. Qed.
End Facts6.

(** ** The four reducers on lines that do not split in two *)

Section Discard.
Context {B : Builtins}.

Lemma reducer3_skip line : two_fields line = false ->
  forall env pre post,
    Exercise3.reducer env (pre ++ line :: post) = Exercise3.reducer env (pre ++ post).
Proof.
  intros H env pre post. unfold Exercise3.reducer.
  rewrite for_each_skip; [reflexivity |]. intros st. apply body3_skip, H.
Qed.

Lemma reducer4_skip line : two_fields line = false ->
  forall env pre post,
    Exercise4.reducer env (pre ++ line :: post) = Exercise4.reducer env (pre ++ post).
Proof.
  intros H env pre post. unfold Exercise4.reducer.
  rewrite for_each_skip; [reflexivity |]. intros st. apply body4_skip, H.
Qed.

Lemma reducer5_skip line : two_fields line = false ->
  forall env pre post,
    Exercise5.reducer env (pre ++ line :: post) = Exercise5.reducer env (pre ++ post).
Proof.
  intros H env pre post. unfold Exercise5.reducer.
  rewrite for_each_skip; [reflexivity |]. intros st. apply body5_skip, H.
Qed.

Lemma reducer6_skip line : two_fields line = false ->
  forall env pre post,
    Exercise6.reducer env (pre ++ line :: post) = Exercise6.reducer env (pre ++ post).
Proof.
  intros H env pre post. unfold Exercise6.reducer.
  rewrite for_each_skip; [reflexivity |]. intros st. apply body6_skip, H.
Qed.
End Discard.

(** C7, amended: at every reducer (the three grouped ones and the grand
    total) a line that, once [line.strip()] has removed the whitespace at
    its two ends, does not split into exactly two tab-separated fields is
    discarded without any effect.  From whatever the variables hold, the
    loop over a stream with the line ends as the loop over the stream
    without it: same output, same ending, same current key and
    accumulator; and so do whole runs. *)
Theorem malformed_line_discarded {B : Builtins} (line : string) :
  two_fields line = false ->
  (forall pre post,
     (forall st, for_each Exercise3.body st (pre ++ line :: post)
                 = for_each Exercise3.body st (pre ++ post)) /\
     (forall st, for_each Exercise4.body st (pre ++ line :: post)
                 = for_each Exercise4.body st (pre ++ post)) /\
     (forall st, for_each Exercise5.body st (pre ++ line :: post)
                 = for_each Exercise5.body st (pre ++ post)) /\
     (forall st, for_each Exercise6.body st (pre ++ line :: post)
                 = for_each Exercise6.body st (pre ++ post))) /\
  (forall pre post,
     (forall env, Exercise3.reducer env (pre ++ line :: post)
                  = Exercise3.reducer env (pre ++ post)) /\
     (forall env, Exercise4.reducer env (pre ++ line :: post)
                  = Exercise4.reducer env (pre ++ post)) /\
     (forall env, Exercise5.reducer env (pre ++ line :: post)
                  = Exercise5.reducer env (pre ++ post)) /\
     (forall env, Exercise6.reducer env (pre ++ line :: post)
                  = Exercise6.reducer env (pre ++ post))).
Proof.
  intros H. split; intros pre post.
  - repeat split; intros st; apply for_each_skip; intros st'.
    + apply body3_skip, H.
    + apply body4_skip, H.
    + apply body5_skip, H.
    + apply body6_skip, H.
  - repeat split; intros env.
    + apply reducer3_skip, H.
    + apply reducer4_skip, H.
    + apply reducer5_skip, H.
    + apply reducer6_skip, H.
Qed.

(** A three-field line between two pairs of one key changes nothing. *)
Lemma malformed_line_discarded_witness :
  two_fields (record_line ["y"; "1"; "x"]) = false /\
  Exercise4.reducer (B := decimal) blank4
    ([pair_line "y" "1"] ++ record_line ["y"; "1"; "x"] :: [pair_line "y" "2"])
  = Exercise4.reducer (B := decimal) blank4 ([pair_line "y" "1"] ++ [pair_line "y" "2"]).
Proof.
  split; [reflexivity |].
  apply (proj2 (malformed_line_discarded (B := decimal)
                  (record_line ["y"; "1"; "x"]) eq_refl)
           [pair_line "y" "1"] [pair_line "y" "2"]).
Defined.

(** C7 as stated fails when the fields are counted on the line as it
    arrives.  The lines [a<TAB>5<TAB>] and [<TAB>a<TAB>5] have three
    tab-separated fields, one of them empty at an end of the line; the
    strip removes that end with its tab, the reducers read the pair
    [(a, 5)] and fold it: after the pair [(a, 1)] the count reducer
    prints [6], not the [1] of the stream without the line, and the loop
    body changes the accumulator. *)
Lemma malformed_line_counterexample :
  (List.length (split tab (record_line ["a"; "5"; ""])) = 3%nat /\
   List.length (split tab (record_line [""; "a"; "5"])) = 3%nat) /\
  (fields (record_line ["a"; "5"; ""]) = ["a"; "5"] /\
   fields (record_line [""; "a"; "5"]) = ["a"; "5"]) /\
  (Exercise4.reducer (B := decimal) blank4
     ([pair_line "a" "1"] ++ record_line ["a"; "5"; ""] :: [])
   = ([mkResult "a" (PyInt 6)], inr tt) /\
   Exercise4.reducer (B := decimal) blank4
     ([] ++ record_line [""; "a"; "5"] :: [pair_line "a" "1"])
   = ([mkResult "a" (PyInt 6)], inr tt) /\
   Exercise4.reducer (B := decimal) blank4 [pair_line "a" "1"]
   = ([mkResult "a" (PyInt 1)], inr tt)) /\
  (Exercise4.body (B := decimal) (Exercise4.mkVars (PyInt 1) (Some "a"))
     (record_line ["a"; "5"; ""])
   = ret (Exercise4.mkVars (PyInt 6) (Some "a")) /\
   Exercise3.reducer (B := decimal) blank3
     ([pair_line "a" "1"] ++ record_line ["a"; "5"; ""] :: [])
   = ([mkResult "a" (PyFloat 5)], inr tt) /\
   Exercise5.reducer (B := decimal) blank5
     ([pair_line "a" "1"] ++ record_line ["a"; "5"; ""] :: [])
   = ([mkResult "a" (PyFloat 6)], inr tt) /\
   Exercise6.reducer (B := decimal) blank6
     ([pair_line "a" "1"] ++ record_line ["a"; "5"; ""] :: [])
   = ([mkResult "TOTAL_ABSOLUTO" (PyFloat 6)], inr tt)).
Proof. repeat split. Qed.

(** ** Measures that do not parse *)

Section Abort.
Context {B : Builtins}.

Lemma reducer3_aborts line k m :
  fields line = [k; m] -> py_float m = None ->
  forall env pre post, aborted (Exercise3.reducer env (pre ++ line :: post)) = true.
Proof.
  intros F P env pre post. unfold Exercise3.reducer.
  apply aborted_bind, for_each_aborts. intros st.
  rewrite (body3_raises st line k m F P). reflexivity.
Qed.

Lemma reducer4_aborts line k m :
  fields line = [k; m] -> py_int m = None ->
  forall env pre post, aborted (Exercise4.reducer env (pre ++ line :: post)) = true.
Proof.
  intros F P env pre post. unfold Exercise4.reducer.
  apply aborted_bind, for_each_aborts. intros st.
  rewrite (body4_raises st line k m F P). reflexivity.
Qed.

Lemma reducer5_aborts line k m :
  fields line = [k; m] -> py_float m = None ->
  forall env pre post, aborted (Exercise5.reducer env (pre ++ line :: post)) = true.
Proof.
  intros F P env pre post. unfold Exercise5.reducer.
  apply aborted_bind, for_each_aborts. intros st.
  eapply raises_aborted, body5_raises; eassumption.
Qed.
End Abort.

(** C6, amended: in each grouped reducer a line that, after the strip
    of the whitespace at its two ends, has exactly two tab-separated
    fields and a measure that does not parse in the reducer's domain
    ([float] for the max and the sum, [int] for the count) raises
    [ValueError] in the loop body, whatever the variables hold, and every
    run over a stream that contains the line ends aborted: the line is
    neither skipped nor folded. *)
Theorem unparseable_measure_aborts {B : Builtins} (line k m : string) :
  fields line = [k; m] ->
  (py_float m = None ->
     (forall st, snd (Exercise3.body st line) = inl ValueError) /\
     (forall st, snd (Exercise5.body st line) = inl ValueError) /\
     (forall env pre post,
        aborted (Exercise3.reducer env (pre ++ line :: post)) = true) /\
     (forall env pre post,
        aborted (Exercise5.reducer env (pre ++ line :: post)) = true)) /\
  (py_int m = None ->
     (forall st, snd (Exercise4.body st line) = inl ValueError) /\
     (forall env pre post,
        aborted (Exercise4.reducer env (pre ++ line :: post)) = true)).
Proof.
  intros F. split; intros P.
  - repeat split.
    + intros st. rewrite (body3_raises st line k m F P). reflexivity.
    + intros st. eapply body5_raises; eassumption.
    + intros env pre post. eapply reducer3_aborts; eassumption.
    + intros env pre post. eapply reducer5_aborts; eassumption.
  - split.
    + intros st. rewrite (body4_raises st line k m F P). reflexivity.
    + intros env pre post. eapply reducer4_aborts; eassumption.
Qed.

(** The measure [abc] after one good pair. *)
Lemma unparseable_measure_aborts_witness :
  fields (pair_line "b" "abc") = ["b"; "abc"] /\
  py_float (Builtins := decimal) "abc" = None /\
  py_int (Builtins := decimal) "abc" = None /\
  aborted (Exercise3.reducer (B := decimal) blank3
             ([pair_line "a" "1"] ++ pair_line "b" "abc" :: [])) = true /\
  aborted (Exercise4.reducer (B := decimal) blank4
             ([pair_line "a" "1"] ++ pair_line "b" "abc" :: [])) = true.
Proof.
  pose proof (unparseable_measure_aborts (B := decimal)
                (pair_line "b" "abc") "b" "abc" eq_refl) as [HF HI].
  split; [reflexivity |]. split; [reflexivity |]. split; [reflexivity |].
  split.
  - apply (HF eq_refl).
  - apply (HI eq_refl).
Defined.

(** C6 as stated fails when the two fields are those of the line as it
    arrives.  The line [k<TAB>] followed by a line feed is a pair with
    the key [k] and an empty measure, which neither [float] nor [int]
    accepts (with or without the line feed, or a space); the strip
    removes the tab with the line feed, one field is left, and each
    grouped reducer skips the line: the run does not abort and prints
    what it prints without the line. *)
Lemma unparseable_measure_counterexample :
  (split tab (pair_line "k" "") = ["k"; String newline ""] /\
   py_float (Builtins := decimal) (String newline "") = None /\
   py_int (Builtins := decimal) (String newline "") = None /\
   py_float (Builtins := decimal) "" = None /\
   py_int (Builtins := decimal) "" = None) /\
  fields (pair_line "k" "") = ["k"] /\
  (Exercise3.reducer (B := decimal) blank3
     ([pair_line "a" "1"] ++ pair_line "k" "" :: [pair_line "a" "2"])
   = ([mkResult "a" (PyFloat 2)], inr tt) /\
   Exercise4.reducer (B := decimal) blank4
     ([pair_line "a" "1"] ++ pair_line "k" "" :: [pair_line "a" "2"])
   = ([mkResult "a" (PyInt 3)], inr tt) /\
   Exercise5.reducer (B := decimal) blank5
     ([pair_line "a" "1"] ++ pair_line "k" "" :: [pair_line "a" "2"])
   = ([mkResult "a" (PyFloat 3)], inr tt)) /\
  (aborted (Exercise3.reducer (B := decimal) blank3
              ([] ++ pair_line "k" " " :: [])) = false /\
   aborted (Exercise4.reducer (B := decimal) blank4
              ([] ++ pair_line "k" " " :: [])) = false /\
   aborted (Exercise5.reducer (B := decimal) blank5
              ([] ++ pair_line "k" " " :: [])) = false).
Proof. repeat split. Qed.

(** ** The end of the stream *)

Section Flush.
Context {B : Builtins}.

Lemma reducer3_flush env stdin out st :
  for_each Exercise3.body (Exercise3.start env) stdin = (out, inr st) ->
  Exercise3.reducer env stdin
  = (out ++ flush (open_key stdin) (Exercise3.maxSale st), inr tt).
Proof.
  intros E. unfold Exercise3.reducer. rewrite (bind_returns _ _ _ _ E).
  pose proof (for_each_open_key _ _ Exercise3.oldKey body3_skip body3_key
                _ _ _ _ E) as K.
  change (fold_left next_key stdin (Exercise3.oldKey (Exercise3.start env)))
    with (open_key stdin) in K.
  unfold Exercise3.finish. rewrite K. destruct (open_key stdin); reflexivity.
Qed.

Lemma reducer4_flush env stdin out st :
  for_each Exercise4.body (Exercise4.start env) stdin = (out, inr st) ->
  Exercise4.reducer env stdin
  = (out ++ flush (open_key stdin) (Exercise4.count st), inr tt).
Proof.
  intros E. unfold Exercise4.reducer. rewrite (bind_returns _ _ _ _ E).
  pose proof (for_each_open_key _ _ Exercise4.oldKey body4_skip body4_key
                _ _ _ _ E) as K.
  change (fold_left next_key stdin (Exercise4.oldKey (Exercise4.start env)))
    with (open_key stdin) in K.
  unfold Exercise4.finish. rewrite K. destruct (open_key stdin); reflexivity.
Qed.

Lemma reducer5_flush env stdin out st :
  for_each Exercise5.body (Exercise5.start env) stdin = (out, inr st) ->
  Exercise5.reducer env stdin
  = (out ++ flush (open_key stdin) (Exercise5.salesTotal st), inr tt).
Proof.
  intros E. unfold Exercise5.reducer. rewrite (bind_returns _ _ _ _ E).
  pose proof (for_each_open_key _ _ Exercise5.oldKey body5_skip body5_key
                _ _ _ _ E) as K.
  change (fold_left next_key stdin (Exercise5.oldKey (Exercise5.start env)))
    with (open_key stdin) in K.
  unfold Exercise5.finish. rewrite K. destruct (open_key stdin); reflexivity.
Qed.
End Flush.

(** C8: at the end of the stream each grouped reducer prints, after what
    the loop printed, exactly one Result for the group left open (the key
    of the last line that split in two, with the accumulator), and
    nothing when no group is open; no group is open exactly when no line
    of the stream split in two, and then the run prints nothing at all,
    in particular on the empty stream. *)
Theorem end_of_stream_flush {B : Builtins} (stdin : list string) :
  ((forall env out st,
      for_each Exercise3.body (Exercise3.start env) stdin = (out, inr st) ->
      Exercise3.reducer env stdin
      = (out ++ flush (open_key stdin) (Exercise3.maxSale st), inr tt)) /\
   (forall env out st,
      for_each Exercise4.body (Exercise4.start env) stdin = (out, inr st) ->
      Exercise4.reducer env stdin
      = (out ++ flush (open_key stdin) (Exercise4.count st), inr tt)) /\
   (forall env out st,
      for_each Exercise5.body (Exercise5.start env) stdin = (out, inr st) ->
      Exercise5.reducer env stdin
      = (out ++ flush (open_key stdin) (Exercise5.salesTotal st), inr tt))) /\
  (open_key stdin = None <-> forallb (fun l => negb (two_fields l)) stdin = true) /\
  (open_key stdin = None ->
     (forall env, Exercise3.reducer env stdin = ([], inr tt)) /\
     (forall env, Exercise4.reducer env stdin = ([], inr tt)) /\
     (forall env, Exercise5.reducer env stdin = ([], inr tt))) /\
  ((forall env, Exercise3.reducer env [] = ([], inr tt)) /\
   (forall env, Exercise4.reducer env [] = ([], inr tt)) /\
   (forall env, Exercise5.reducer env [] = ([], inr tt))).
Proof.
  split; [| split; [| split]].
  - repeat split; intros env out st E.
    + apply reducer3_flush, E.
    + apply reducer4_flush, E.
    + apply reducer5_flush, E.
  - apply open_key_none.
  - intros N. pose proof (proj1 (open_key_none stdin) N) as A.
    repeat split; intros env.
    + rewrite (reducer3_flush env stdin [] (Exercise3.start env)).
      * rewrite N. reflexivity.
      * apply (for_each_all_skipped _ _ body3_skip), A.
    + rewrite (reducer4_flush env stdin [] (Exercise4.start env)).
      * rewrite N. reflexivity.
      * apply (for_each_all_skipped _ _ body4_skip), A.
    + rewrite (reducer5_flush env stdin [] (Exercise5.start env)).
      * rewrite N. reflexivity.
      * apply (for_each_all_skipped _ _ body5_skip), A.
  - repeat split.
Qed.

(** The open group of [a 1, a 5] is flushed with its maximum; a stream of
    one malformed line flushes nothing. *)
Lemma end_of_stream_flush_witness :
  Exercise3.reducer (B := decimal) blank3 [pair_line "a" "1"; pair_line "a" "5"]
  = ([] ++ flush (open_key [pair_line "a" "1"; pair_line "a" "5"]) (PyFloat 5),
     inr tt) /\
  Exercise5.reducer (B := decimal) blank5 ["junk"] = ([], inr tt).
Proof.
  split.
  - apply (proj1 (proj1 (end_of_stream_flush (B := decimal)
                           [pair_line "a" "1"; pair_line "a" "5"]))
             blank3 [] (Exercise3.mkVars (PyFloat 5) (Some "a"))).
    reflexivity.
  - apply (proj2 (proj2 (proj1 (proj2 (proj2
             (end_of_stream_flush (B := decimal) ["junk"]))) eq_refl))).
Defined.

(** ** Lines with an empty key *)

(** C10: a pair line whose key is empty (the raw line splits at its only
    tab into an empty key and a measure) is discarded by every reducer,
    because the strip removes the leading tab and leaves one field; so
    the key of every line that is retained is non-empty, and in every
    state the loop of a grouped reducer reaches, the truth value of
    [oldKey] is that of [oldKey != None]. *)
Theorem empty_key_line_discarded {B : Builtins} (line v : string) :
  split tab line = [""; v] ->
  (fields line = [strip v] /\
   (forall st, Exercise3.body st line = ret st) /\
   (forall st, Exercise4.body st line = ret st) /\
   (forall st, Exercise5.body st line = ret st) /\
   (forall st, Exercise6.body st line = ret st)) /\
  (forall line' k m, fields line' = [k; m] -> k <> "") /\
  (forall stdin,
     (forall env out st,
        for_each Exercise3.body (Exercise3.start env) stdin = (out, inr st) ->
        truthy (Exercise3.oldKey st) = is_not_None (Exercise3.oldKey st)) /\
     (forall env out st,
        for_each Exercise4.body (Exercise4.start env) stdin = (out, inr st) ->
        truthy (Exercise4.oldKey st) = is_not_None (Exercise4.oldKey st)) /\
     (forall env out st,
        for_each Exercise5.body (Exercise5.start env) stdin = (out, inr st) ->
        truthy (Exercise5.oldKey st) = is_not_None (Exercise5.oldKey st))).
Proof.
  intros H. pose proof (fields_empty_key line v H) as F.
  assert (two_fields line = false) as T.
  { unfold two_fields. rewrite F. reflexivity. }
  split; [| split].
  - split; [exact F |]. repeat split; intros st.
    + apply body3_skip, T.
    + apply body4_skip, T.
    + apply body5_skip, T.
    + apply body6_skip, T.
  - apply fields_key_nonempty.
  - intros stdin. repeat split; intros env out st E.
    + apply (for_each_key_truthy _ _ Exercise3.oldKey body3_skip body3_key
               stdin (Exercise3.start env) out st); [reflexivity | exact E].
    + apply (for_each_key_truthy _ _ Exercise4.oldKey body4_skip body4_key
               stdin (Exercise4.start env) out st); [reflexivity | exact E].
    + apply (for_each_key_truthy _ _ Exercise5.oldKey body5_skip body5_key
               stdin (Exercise5.start env) out st); [reflexivity | exact E].
Qed.

(** The line [\t5\n] between two pairs of key [a]. *)
Lemma empty_key_line_discarded_witness :
  split tab (pair_line "" "5") = [""; String "5" (String newline "")] /\
  fields (pair_line "" "5") = ["5"] /\
  Exercise3.body (B := decimal) (Exercise3.mkVars (PyFloat 2) (Some "a"))
    (pair_line "" "5")
  = ret (Exercise3.mkVars (PyFloat 2) (Some "a")).
Proof.
  pose proof (empty_key_line_discarded (B := decimal) (pair_line "" "5")
                (String "5" (String newline "")) eq_refl) as [[F [H3 _]] _].
  split; [reflexivity |]. split; [exact F |]. apply H3.
Defined.

(** ** The first group of the max reducer *)

(** A stream of one pair: the accumulator starts at [-1] and takes the
    measure only when the measure is larger. *)
Lemma max_single_pair {B : Builtins} env line k m f :
  fields line = [k; m] -> py_float m = Some f ->
  Exercise3.reducer env [line]
  = ([mkResult k (if above_minus_one f then PyFloat f else PyInt (-1))], inr tt).
Proof.
  intros F P. unfold Exercise3.reducer. cbn [for_each].
  unfold Exercise3.body, above_minus_one. rewrite F, P. simpl.
  destruct (PrimFloat.ltb _ f); reflexivity.
Qed.

(** C2, on the code: the stream of the single pair [(k, -5)] yields the
    Result [(k, -1)], the initial value of [maxSale], and not [(k, -5.0)]:
    the first pair does not initialise the accumulator from its measure. *)
Theorem max_first_pair_negative :
  forall env,
    Exercise3.reducer (B := decimal) env [pair_line "k" "-5"]
    = ([mkResult "k" (PyInt (-1))], inr tt) /\
    py_float (Builtins := decimal) "-5" = Some (-5)%float.
Proof. intros env. split; reflexivity. Qed.

(** C1, on the code: on the key-sorted stream [a -5, a -7, b 2] the max
    reducer prints [-1] for the key [a], whose measures are [-5] and [-7],
    and [2.0] for [b]. *)
Theorem max_first_group_below_minus_one :
  forall env,
    Exercise3.reducer (B := decimal) env
      [pair_line "a" "-5"; pair_line "a" "-7"; pair_line "b" "2"]
    = ([mkResult "a" (PyInt (-1)); mkResult "b" (PyFloat 2)], inr tt).
Proof. intros env. reflexivity. Qed.

(** ** The hour mapper on timestamps without a time of day *)

(** A record whose timestamp holds no space: the subscript [[1]] raises
    [IndexError], which the [try] does not catch. *)
Lemma mapper_no_space_raises {B : Builtins} line datetime store item cost payment :
  split tab (strip line) = [datetime; store; item; cost; payment] ->
  contains space datetime = false ->
  Exercise5.mapper_body tt line = raise IndexError.
Proof.
  intros F C. unfold Exercise5.mapper_body. rewrite F.
  destruct (strip line =? "") eqn:E.
  - apply String.eqb_eq in E. rewrite E in F. discriminate.
  - cbn [List.length Nat.eqb negb]. rewrite (split_without _ _ C). reflexivity.
Qed.

(** C4, on the code: a five-field record whose timestamp is a date with
    no time of day stops the mapper with [IndexError], records after it
    unread; one whose time of day has no colon is emitted with the whole
    time string as its key. *)
Theorem mapper_bad_timestamp :
  Exercise5.mapper (B := decimal)
    [record_line ["2020-01-01 12:30"; "Vigo"; "Ropa"; "5.0"; "cash"];
     record_line ["2020-01-01"; "Vigo"; "Ropa"; "5.0"; "cash"];
     record_line ["2020-01-01 18:05"; "Lugo"; "Cine"; "7.5"; "visa"]]
  = ([("12" ++ String tab "5.0")%string], inl IndexError) /\
  Exercise5.mapper (B := decimal)
    [record_line ["2020-01-01 1230"; "Vigo"; "Ropa"; "5.0"; "cash"]]
  = ([("1230" ++ String tab "5.0")%string], inr tt).
Proof. split; reflexivity. Qed.

(** ** The grand total *)

Section GrandTotal.
Context {B : Builtins}.

Lemma loop6_total stdin : forall st,
  forallb parses_float stdin = true ->
  for_each Exercise6.body st stdin
  = ret (Exercise6.mkVars (fold_left py_add (measures stdin) (Exercise6.total st))).
Proof.
  induction stdin as [| line stdin IH]; intros [t]; cbn [for_each forallb].
  - reflexivity.
  - intros H. apply andb_prop in H. destruct H as [H1 H2].
    unfold measures. cbn [flat_map]. rewrite fold_left_app.
    fold (measures stdin). destruct (two_fields line) eqn:T.
    + unfold two_fields in T.
      destruct (fields line) as [| k [| m [| c l]]] eqn:F; try discriminate.
      unfold parses_float in H1. rewrite F in H1.
      destruct (py_float m) as [f |] eqn:P; [| discriminate].
      unfold Exercise6.body, measure. rewrite F, P, bind_ret_l.
      rewrite (IH _ H2). reflexivity.
    + rewrite body6_skip, bind_ret_l by exact T.
      assert (measure line = []) as ->.
      { unfold measure, two_fields in *.
        destruct (fields line) as [| k [| m [| c l]]];
          try reflexivity; discriminate. }
      apply (IH _ H2).
Qed.

(** The loop prints nothing, and the only exception is [ValueError]. *)
Lemma loop6_silent stdin : forall st,
  fst (for_each Exercise6.body st stdin) = [] /\
  (aborted (for_each Exercise6.body st stdin) = true ->
   snd (for_each Exercise6.body st stdin) = inl ValueError).
Proof.
  induction stdin as [| line stdin IH]; intros st; cbn [for_each].
  - split; [reflexivity | discriminate].
  - unfold Exercise6.body.
    destruct (fields line) as [| k [| m [| c l]]];
      try (rewrite bind_ret_l; apply IH).
    destruct (py_float m) as [f |].
    + rewrite bind_ret_l. apply IH.
    + split; reflexivity.
Qed.

Lemma reducer6_aborts line k m :
  fields line = [k; m] -> py_float m = None ->
  forall env pre post,
    Exercise6.reducer env (pre ++ line :: post) = ([], inl ValueError).
Proof.
  intros F P env pre post. unfold Exercise6.reducer.
  destruct (loop6_silent (pre ++ line :: post) (Exercise6.start env)) as [S E].
  assert (aborted (for_each Exercise6.body (Exercise6.start env)
                     (pre ++ line :: post)) = true) as A.
  { apply for_each_aborts. intros st.
    rewrite (body6_raises st line k m F P). reflexivity. }
  specialize (E A).
  destruct (for_each Exercise6.body (Exercise6.start env) (pre ++ line :: post))
    as [out r]. simpl in *. subst. reflexivity.
Qed.
End GrandTotal.

(** C3 as the code has it: on every stream in which each line that splits
    in two has a measure [float] accepts, the grand-total reducer prints
    exactly one Result, after the whole stream: its key is the fixed
    string [TOTAL_ABSOLUTO] and its value the sum, from [0] and in stream
    order, of the measures of all those lines whatever their keys; on the
    empty stream the value is the [int] [0]. *)
Theorem grand_total {B : Builtins} (stdin : list string) :
  forallb parses_float stdin = true ->
  forall env,
    Exercise6.reducer env stdin
    = ([mkResult "TOTAL_ABSOLUTO" (fold_left py_add (measures stdin) (PyInt 0))],
       inr tt).
Proof.
  intros H env. unfold Exercise6.reducer.
  rewrite (loop6_total stdin _ H), bind_ret_l. reflexivity.
Qed.

(** The example of the specification, and the empty stream. *)
Lemma grand_total_witness :
  Exercise6.reducer (B := decimal) blank6
    [pair_line "h1" "10"; pair_line "h2" "20"; pair_line "h3" "5"]
  = ([mkResult "TOTAL_ABSOLUTO" (PyFloat 35)], inr tt) /\
  Exercise6.reducer (B := decimal) blank6 []
  = ([mkResult "TOTAL_ABSOLUTO" (PyInt 0)], inr tt).
Proof.
  split.
  - apply (grand_total (B := decimal)
             [pair_line "h1" "10"; pair_line "h2" "20"; pair_line "h3" "5"]
             eq_refl blank6).
  - apply (grand_total (B := decimal) [] eq_refl blank6).
Defined.

(** C3 as stated fails: on the stream of the specification's example the
    key printed is not [TOTAL], and a stream with a measure [float]
    rejects ends in [ValueError] with no Result at all. *)
Lemma grand_total_counterexample :
  Exercise6.reducer (B := decimal) blank6
    [pair_line "h1" "10"; pair_line "h2" "20"; pair_line "h3" "5"]
  <> ([mkResult "TOTAL" (PyFloat 35)], inr tt) /\
  Exercise6.reducer (B := decimal) blank6
    [pair_line "h1" "10"; pair_line "h2" "abc"]
  = ([], inl ValueError).
Proof.
  split.
  - intros H. vm_compute in H. discriminate H.
  - reflexivity.
Qed.

(** ** The sum reducer and the specification's scheme *)

(** Adding a float to the [int] [0] gives the float back, unless it is
    [-0.0]: [0 + -0.0] is [0.0]. *)
Lemma zero_add f : is_negative_zero f = false -> (0 + f)%float = f.
Proof.
  unfold is_negative_zero. intros H. apply Prim2SF_inj. rewrite add_spec.
  change (Prim2SF 0) with (S754_zero false).
  destruct (Prim2SF f) as [[] | [] | | [] m e]; try reflexivity. discriminate.
Qed.

Lemma py_add_zero f :
  is_negative_zero f = false -> py_add (PyInt 0) (PyFloat f) = PyFloat f.
Proof. intros H. unfold py_add. simpl. rewrite (zero_add f H). reflexivity. Qed.

Section SumScheme.
Context {B : Builtins}.
Import SpecAggregator.

Lemma sum_step a line :
  keyed a -> sum_ready line = true ->
  Exercise5.body (sum_vars a) line = fmap sum_vars (step sum_per_key a line) /\
  (forall out a', step sum_per_key a line = (out, inr a') -> keyed a').
Proof.
  intros K R. unfold Exercise5.body, step, sum_ready in *.
  destruct (fields line) as [| k [| m [| c l]]] eqn:F;
    try (split; [reflexivity | unfold ret; intros out a' [= _ <-]; exact K]).
  apply fields_key_nonempty in F.
  change (domain sum_per_key m) with (option_map PyFloat (py_float m)).
  destruct (py_float m) as [f |]; [| discriminate].
  apply negb_true_iff in R. cbn [option_map].
  destruct a as [| k0 acc]; cbn [sum_vars transition Exercise5.oldKey truthy andb].
  - rewrite bind_ret_l. cbn [Exercise5.salesTotal Exercise5.oldKey].
    rewrite (py_add_zero f R). split; [reflexivity |].
    unfold ret. intros out a' [= _ <-]. exact F.
  - cbn [keyed] in K. apply String.eqb_neq in K. rewrite K.
    cbn [negb andb differs]. rewrite (String.eqb_sym k0 k).
    destruct (String.eqb_spec k k0) as [-> | N]; cbn [negb].
    + rewrite bind_ret_l. split; [reflexivity |].
      unfold ret. intros out a' [= _ <-]. apply String.eqb_neq, K.
    + cbn [print_result Exercise5.salesTotal initializer fold].
      unfold print, ret, bind, fmap. cbn.
      rewrite (zero_add f R). split; [reflexivity |].
      intros out a' [= _ <-]. exact F.
Qed.

Lemma sum_loop stdin : forall a,
  keyed a -> forallb sum_ready stdin = true ->
  for_each Exercise5.body (sum_vars a) stdin
  = fmap sum_vars (for_each (step sum_per_key) a stdin).
Proof.
  induction stdin as [| line stdin IH]; intros a K H; cbn [for_each].
  - reflexivity.
  - cbn [forallb] in H. apply andb_prop in H. destruct H as [H1 H2].
    destruct (sum_step a line K H1) as [E K'].
    rewrite E, bind_fmap, fmap_bind. apply bind_ext_on.
    intros out a' Ha. apply IH; [eapply K', Ha | exact H2].
Qed.

Lemma sum_finish a : Exercise5.finish (sum_vars a) = end_of_stream a.
Proof. destruct a; reflexivity. Qed.
End SumScheme.

(** C5 as the code has it: on every stream whose lines that split in two
    carry a measure [float] accepts, other than [-0.0], the sum reducer
    (reset to [0] at a key change, then add) and the specification's
    scheme with Initializer(v) = v and Fold(acc, v) = acc + v print the
    same Results and end the same way. *)
Theorem sum_reducer_matches_scheme {B : Builtins} (stdin : list string) :
  forallb sum_ready stdin = true ->
  forall env,
    Exercise5.reducer env stdin
    = SpecAggregator.run SpecAggregator.sum_per_key stdin.
Proof.
  intros H env. unfold Exercise5.reducer, SpecAggregator.run.
  change (Exercise5.start env) with (sum_vars SpecAggregator.NO_GROUP).
  rewrite (sum_loop stdin SpecAggregator.NO_GROUP I H), bind_fmap.
  apply bind_ext.
  intros a. apply sum_finish.
Qed.

(** The example of the specification, [x 1.5, x 2.5], followed by a
    second key. *)
Lemma sum_reducer_matches_scheme_witness :
  Exercise5.reducer (B := decimal) blank5
    [pair_line "x" "1.5"; pair_line "x" "2.5"; pair_line "y" "3"]
  = SpecAggregator.run (SpecAggregator.sum_per_key (B := decimal))
      [pair_line "x" "1.5"; pair_line "x" "2.5"; pair_line "y" "3"] /\
  Exercise5.reducer (B := decimal) blank5
    [pair_line "x" "1.5"; pair_line "x" "2.5"; pair_line "y" "3"]
  = ([mkResult "x" (PyFloat 4); mkResult "y" (PyFloat 3)], inr tt).
Proof.
  split.
  - apply (sum_reducer_matches_scheme (B := decimal)
             [pair_line "x" "1.5"; pair_line "x" "2.5"; pair_line "y" "3"]
             eq_refl blank5).
  - reflexivity.
Defined.

(** The two zeros of binary64 are different values: their reciprocals
    have opposite signs. *)
Lemma zeros_differ : PyFloat 0 <> PyFloat (-0).
Proof.
  intros H.
  assert (forall a b, a = b ->
            PrimFloat.ltb (1 / to_float a) 0 = PrimFloat.ltb (1 / to_float b) 0)
    as E by (intros a b ->; reflexivity).
  specialize (E _ _ H). vm_compute in E. discriminate E.
Qed.

(** C5 as stated fails: on the one-pair stream [a -0.0] the script prints
    the total [0 + -0.0], which is [0.0], and the scheme prints the
    measure itself, [-0.0]. *)
Lemma sum_scheme_counterexample :
  Exercise5.reducer (B := decimal) blank5 [pair_line "a" "-0.0"]
  = ([mkResult "a" (PyFloat 0)], inr tt) /\
  SpecAggregator.run (SpecAggregator.sum_per_key (B := decimal)) [pair_line "a" "-0.0"]
  = ([mkResult "a" (PyFloat (-0))], inr tt) /\
  Exercise5.reducer (B := decimal) blank5 [pair_line "a" "-0.0"]
  <> SpecAggregator.run (SpecAggregator.sum_per_key (B := decimal)) [pair_line "a" "-0.0"].
Proof.
  assert (Exercise5.reducer (B := decimal) blank5 [pair_line "a" "-0.0"]
          = ([mkResult "a" (PyFloat 0)], inr tt)) as E1 by reflexivity.
  assert (SpecAggregator.run (SpecAggregator.sum_per_key (B := decimal))
            [pair_line "a" "-0.0"]
          = ([mkResult "a" (PyFloat (-0))], inr tt)) as E2 by reflexivity.
  split; [exact E1 |]. split; [exact E2 |].
  rewrite E1, E2. intros H.
  apply (f_equal (fun r => map value (fst r))) in H. cbn [map fst value] in H.
  apply (f_equal (hd (PyInt 0))) in H. exact (zeros_differ H).
Qed.

(** ** One Result per key: the groups of a key-sorted stream *)

Section Groups.
Variable c : SpecAggregator.combine.
Variable le : string -> string -> Prop.
Hypothesis le_antisym : forall a b, le a b -> le b a -> a = b.

Lemma measures_of_same k v ps :
  measures_of k ((k, v) :: ps) = v :: measures_of k ps.
Proof. unfold measures_of. simpl. rewrite String.eqb_refl. reflexivity. Qed.

Lemma measures_of_other k k' v ps :
  k' <> k -> measures_of k ((k', v) :: ps) = measures_of k ps.
Proof.
  intros N. unfold measures_of. simpl.
  apply String.eqb_neq in N. rewrite N. reflexivity.
Qed.

Lemma measures_of_absent k ps : ~ In k (map fst ps) -> measures_of k ps = [].
Proof.
  induction ps as [| [k' v] ps IH]; simpl; intros N; [reflexivity |].
  rewrite measures_of_other by (intros ->; apply N; left; reflexivity).
  apply IH. intros H. apply N. right. exact H.
Qed.

Lemma filter_absent k ks :
  ~ In k ks -> filter (fun k' => negb (k' =? k)) ks = ks.
Proof.
  induction ks as [| a ks IH]; simpl; intros N; [reflexivity |].
  destruct (String.eqb_spec a k) as [-> | _]; simpl.
  - destruct N. left. reflexivity.
  - rewrite IH; [reflexivity |]. intros H. apply N. right. exact H.
Qed.

Lemma filter_twice k (ks : list string) :
  filter (fun k' => negb (k' =? k)) (filter (fun k' => negb (k' =? k)) ks)
  = filter (fun k' => negb (k' =? k)) ks.
Proof.
  induction ks as [| a ks IH]; simpl; [reflexivity |].
  destruct (negb (a =? k)) eqn:E; simpl; [rewrite E, IH |]; auto.
Qed.

Lemma distinct_subset k ks : In k (distinct ks) -> In k ks.
Proof.
  revert k. induction ks as [| a ks IH]; simpl; intros k; [exact (fun H => H) |].
  intros [-> | H]; [left; reflexivity |].
  apply filter_In in H. right. apply IH, H.
Qed.

(** A pair put in front changes nothing for the other keys. *)
Lemma map_other_keys k v ps ks :
  map (fun k' => mkResult k' (combined c (measures_of k' ((k, v) :: ps))))
    (filter (fun k' => negb (k' =? k)) ks)
  = map (fun k' => mkResult k' (combined c (measures_of k' ps)))
      (filter (fun k' => negb (k' =? k)) ks).
Proof.
  apply map_ext_in. intros k' H. apply filter_In in H.
  destruct H as [_ H]. apply negb_true_iff, String.eqb_neq in H.
  rewrite measures_of_other by (intros E; apply H; symmetry; exact E).
  reflexivity.
Qed.

(** In a sorted stream a key that was left does not come back. *)
Lemma sorted_absent k0 k ks :
  StronglySorted le (k0 :: k :: ks) -> k <> k0 -> ~ In k0 (k :: ks).
Proof.
  intros S N H. apply StronglySorted_inv in S. destruct S as [S F0].
  apply StronglySorted_inv in S. destruct S as [_ F].
  rewrite Forall_forall in F0, F.
  destruct H as [-> | H]; [apply N; reflexivity |].
  apply N. apply le_antisym.
  - apply F, H.
  - apply F0. left. reflexivity.
Qed.

Lemma emit_sorted ps : forall k0 acc,
  StronglySorted le (k0 :: map fst ps) ->
  emit c k0 acc ps
  = mkResult k0 (fold_left (SpecAggregator.fold c) (measures_of k0 ps) acc)
    :: map (fun k => mkResult k (combined c (measures_of k ps)))
         (filter (fun k' => negb (k' =? k0)) (distinct (map fst ps))).
Proof.
  induction ps as [| [k v] ps IH]; intros k0 acc S; [reflexivity |].
  cbn [emit map fst distinct].
  destruct (String.eqb_spec k k0) as [-> | N].
  - assert (StronglySorted le (k0 :: map fst ps)) as S'.
    { apply StronglySorted_inv in S. apply S. }
    rewrite (IH k0 _ S'), measures_of_same. cbn [fold_left filter].
    rewrite String.eqb_refl. cbn [negb]. rewrite filter_twice.
    rewrite map_other_keys. reflexivity.
  - assert (StronglySorted le (k :: map fst ps)) as S'.
    { apply StronglySorted_inv in S. apply S. }
    pose proof (sorted_absent _ _ _ S N) as A.
    rewrite (IH k _ S').
    rewrite (measures_of_absent k0 ((k, v) :: ps)) by exact A.
    cbn [fold_left filter]. apply String.eqb_neq in N. rewrite N. cbn [negb map].
    rewrite measures_of_same. cbn [combined].
    rewrite (filter_absent k0
               (filter (fun k' => negb (k' =? k)) (distinct (map fst ps)))).
    + rewrite map_other_keys. reflexivity.
    + intros H. apply filter_In in H. destruct H as [H _].
      apply distinct_subset in H. apply A. right. exact H.
Qed.

(** The Aggregator on decoded lines. *)
Lemma step_decoded a line k v :
  decode c line = Some (k, v) ->
  SpecAggregator.step c a line = SpecAggregator.transition c a k v.
Proof.
  unfold decode, SpecAggregator.step.
  destruct (fields line) as [| k' [| m [| x l]]]; try discriminate.
  destruct (SpecAggregator.domain c m); [| discriminate].
  intros [= -> ->]. reflexivity.
Qed.

Lemma run_open stdin : forall ps k0 acc,
  map (decode c) stdin = map Some ps ->
  (a <- for_each (SpecAggregator.step c) (SpecAggregator.IN_GROUP k0 acc) stdin ;;
   SpecAggregator.end_of_stream a)
  = (emit c k0 acc ps, inr tt).
Proof.
  induction stdin as [| line stdin IH]; intros [| [k v] ps] k0 acc D;
    try discriminate.
  - reflexivity.
  - cbn [map] in D. injection D as D1 D2. cbn [for_each emit].
    rewrite (step_decoded _ _ _ _ D1), bind_assoc.
    cbn [SpecAggregator.transition].
    destruct (k =? k0).
    + rewrite bind_ret_l. apply IH, D2.
    + rewrite bind_assoc, bind_ret_l.
      rewrite (IH ps k _ D2). reflexivity.
Qed.

Lemma run_groups stdin ps :
  map (decode c) stdin = map Some ps ->
  StronglySorted le (map fst ps) ->
  SpecAggregator.run c stdin = (grouped c ps, inr tt).
Proof.
  unfold SpecAggregator.run. destruct stdin as [| line stdin];
    destruct ps as [| [k v] ps]; try discriminate.
  - reflexivity.
  - intros D S. cbn [map] in D. injection D as D1 D2. cbn [for_each].
    rewrite (step_decoded _ _ _ _ D1), bind_assoc.
    cbn [SpecAggregator.transition]. rewrite bind_ret_l.
    rewrite (run_open stdin ps k _ D2), (emit_sorted ps k _ S).
    unfold grouped. cbn [map fst distinct]. rewrite measures_of_same.
    rewrite map_other_keys. reflexivity.
Qed.
End Groups.

(** ** The grouped reducers against the Aggregator *)

Section Simulation.
Import SpecAggregator.
Variables (S : Type) (body : S -> string -> M Result S).
Variables (c : combine) (vars_of : state -> S).
Variables (good : state -> Prop) (ok : string -> bool).
Hypothesis sim : forall a line,
  good a -> ok line = true ->
  body (vars_of a) line = fmap vars_of (step c a line) /\
  (forall out a', step c a line = (out, inr a') -> good a').

Lemma loop_refines stdin : forall a,
  good a -> forallb ok stdin = true ->
  for_each body (vars_of a) stdin = fmap vars_of (for_each (step c) a stdin).
Proof.
  induction stdin as [| line stdin IH]; intros a G H; cbn [for_each].
  - reflexivity.
  - cbn [forallb] in H. apply andb_prop in H. destruct H as [H1 H2].
    destruct (sim a line G H1) as [E G'].
    rewrite E, bind_fmap, fmap_bind. apply bind_ext_on.
    intros out a' Ha. apply IH; [eapply G', Ha | exact H2].
Qed.
End Simulation.

Lemma forallb_always {A} (l : list A) : forallb (fun _ => true) l = true.
Proof. induction l; simpl; auto. Qed.

(** A decoded stream has no line the float parser rejects. *)
Lemma decoded_parses {B : Builtins} c stdin : forall ps,
  SpecAggregator.domain c = SpecAggregator.float_domain ->
  map (decode c) stdin = map Some ps ->
  forallb parses_float stdin = true.
Proof.
  intros ps Hd. revert ps.
  induction stdin as [| line stdin IH]; intros [| p ps] D; try discriminate.
  - reflexivity.
  - cbn [map] in D. injection D as D1 D2. cbn [forallb].
    rewrite (IH ps D2), andb_true_r. unfold decode, parses_float in *.
    destruct (fields line) as [| k [| m [| x l]]]; try reflexivity.
    rewrite Hd in D1. unfold SpecAggregator.float_domain in D1.
    destruct (py_float m); [reflexivity | discriminate].
Qed.

Section Refinements.
Context {B : Builtins}.
Import SpecAggregator.

Lemma count_step a line :
  keyed a -> (fun _ : string => true) line = true ->
  Exercise4.body (count_vars a) line = fmap count_vars (step count_per_key a line) /\
  (forall out a', step count_per_key a line = (out, inr a') -> keyed a').
Proof.
  intros K _. unfold Exercise4.body, step.
  destruct (fields line) as [| k [| m [| x l]]] eqn:F;
    try (split; [reflexivity | unfold ret; intros out a' [= _ <-]; exact K]).
  apply fields_key_nonempty in F.
  change (domain count_per_key m) with (option_map PyInt (py_int m)).
  destruct (py_int m) as [z |]; cbn [option_map];
    [| split; [reflexivity | discriminate]].
  destruct a as [| k0 acc]; cbn [count_vars transition Exercise4.oldKey truthy andb].
  - split; [reflexivity |]. unfold ret. intros out a' [= _ <-]. exact F.
  - cbn [keyed] in K. apply String.eqb_neq in K. rewrite K.
    cbn [negb andb differs]. rewrite (String.eqb_sym k0 k).
    destruct (String.eqb_spec k k0) as [-> | N]; cbn [negb].
    + split; [reflexivity |].
      unfold ret. intros out a' [= _ <-]. apply String.eqb_neq, K.
    + split; [reflexivity |]. unfold print, ret, bind.
      intros out a' [= _ <-]. exact F.
Qed.

Lemma count_finish a : Exercise4.finish (count_vars a) = end_of_stream a.
Proof. destruct a; reflexivity. Qed.

(** The count reducer is the Aggregator with the count row of the table,
    on every stream. *)
Lemma count_reducer_is_scheme stdin env :
  Exercise4.reducer env stdin = run count_per_key stdin.
Proof.
  unfold Exercise4.reducer, run.
  change (Exercise4.start env) with (count_vars NO_GROUP).
  rewrite (loop_refines _ _ _ _ keyed _ count_step stdin NO_GROUP I
             (forallb_always stdin)).
  rewrite bind_fmap. apply bind_ext. intros a. apply count_finish.
Qed.

Lemma sum_zero_step a line :
  keyed a -> parses_float line = true ->
  Exercise5.body (sum_vars a) line = fmap sum_vars (step sum_from_zero a line) /\
  (forall out a', step sum_from_zero a line = (out, inr a') -> keyed a').
Proof.
  intros K R. unfold Exercise5.body, step, parses_float in *.
  destruct (fields line) as [| k [| m [| x l]]] eqn:F;
    try (split; [reflexivity | unfold ret; intros out a' [= _ <-]; exact K]).
  apply fields_key_nonempty in F.
  change (domain sum_from_zero m) with (option_map PyFloat (py_float m)).
  destruct (py_float m) as [f |]; [| discriminate]. cbn [option_map].
  destruct a as [| k0 acc]; cbn [sum_vars transition Exercise5.oldKey truthy andb].
  - rewrite bind_ret_l. split; [reflexivity |].
    unfold ret. intros out a' [= _ <-]. exact F.
  - cbn [keyed] in K. apply String.eqb_neq in K. rewrite K.
    cbn [negb andb differs]. rewrite (String.eqb_sym k0 k).
    destruct (String.eqb_spec k k0) as [-> | N]; cbn [negb].
    + rewrite bind_ret_l. split; [reflexivity |].
      unfold ret. intros out a' [= _ <-]. apply String.eqb_neq, K.
    + split; [reflexivity |]. unfold print, ret, bind.
      intros out a' [= _ <-]. exact F.
Qed.

(** The sum reducer is the Aggregator with the initializer [0 + v], on
    every stream whose two-field lines parse. *)
Lemma sum_reducer_is_scheme stdin env :
  forallb parses_float stdin = true ->
  Exercise5.reducer env stdin = run sum_from_zero stdin.
Proof.
  intros H. unfold Exercise5.reducer, run.
  change (Exercise5.start env) with (sum_vars NO_GROUP).
  rewrite (loop_refines _ _ _ _ keyed _ sum_zero_step stdin NO_GROUP I H).
  rewrite bind_fmap. apply bind_ext. intros a. apply sum_finish.
Qed.

Lemma max_step a line :
  in_group a -> (fun _ : string => true) line = true ->
  Exercise3.body (max_vars a) line = fmap max_vars (step max_per_key a line) /\
  (forall out a', step max_per_key a line = (out, inr a') -> in_group a').
Proof.
  intros K _. unfold Exercise3.body, step.
  destruct (fields line) as [| k [| m [| x l]]] eqn:F;
    try (split; [reflexivity | unfold ret; intros out a' [= _ <-]; exact K]).
  apply fields_key_nonempty in F.
  change (domain max_per_key m) with (option_map PyFloat (py_float m)).
  destruct (py_float m) as [f |]; cbn [option_map];
    [| split; [reflexivity | discriminate]].
  destruct a as [| k0 acc]; [destruct K |].
  cbn [max_vars transition Exercise3.oldKey Exercise3.maxSale truthy andb].
  cbn [in_group] in K. apply String.eqb_neq in K. rewrite K.
  cbn [negb andb differs]. rewrite (String.eqb_sym k0 k).
  destruct (String.eqb_spec k k0) as [-> | N]; cbn [negb].
  - split; [reflexivity |].
    unfold ret. intros out a' [= _ <-]. apply String.eqb_neq, K.
  - split; [reflexivity |]. unfold print, ret, bind.
    intros out a' [= _ <-]. exact F.
Qed.

Lemma max_finish a : Exercise3.finish (max_vars a) = end_of_stream a.
Proof. destruct a; reflexivity. Qed.

(** The max reducer is the Aggregator with the max row of the table on
    the decoded streams whose first measure is larger than [-1]. *)
Lemma max_reducer_is_scheme stdin ps env :
  map (decode max_per_key) stdin = map Some ps ->
  first_above_minus_one ps = true ->
  Exercise3.reducer env stdin = run max_per_key stdin.
Proof.
  unfold Exercise3.reducer, run.
  destruct stdin as [| line stdin]; destruct ps as [| [k v] ps];
    try discriminate; [reflexivity |].
  intros D A. cbn [map] in D. injection D as D1 _.
  cbn [first_above_minus_one] in A. cbn [for_each].
  rewrite (step_decoded _ _ _ _ _ D1). cbn [transition]. rewrite bind_ret_l.
  unfold decode in D1. unfold Exercise3.body at 1.
  destruct (fields line) as [| k' [| m [| x l]]] eqn:F; try discriminate.
  change (domain max_per_key m) with (option_map PyFloat (py_float m)) in D1.
  destruct (py_float m) as [f |]; [| discriminate].
  cbn [option_map] in D1. injection D1 as -> <-.
  apply fields_key_nonempty in F.
  cbn [Exercise3.start Exercise3.oldKey Exercise3.maxSale truthy andb].
  rewrite A, bind_ret_l.
  change (Exercise3.mkVars (PyFloat f) (Some k))
    with (max_vars (IN_GROUP k (initializer max_per_key (PyFloat f)))).
  rewrite (loop_refines _ _ _ _ in_group _ max_step stdin
             (IN_GROUP k (initializer max_per_key (PyFloat f))) F
             (forallb_always stdin)).
  rewrite bind_fmap. apply bind_ext. intros a. apply max_finish.
Qed.
End Refinements.

Lemma key_le_antisym a b : key_le a b -> key_le b a -> a = b.
Proof. apply String.leb_antisym. Qed.

Lemma combined_sum {B : Builtins} v vs :
  combined sum_from_zero (v :: vs) = fold_left py_add (v :: vs) (PyInt 0).
Proof. reflexivity. Qed.

(** Count per key: on every stream of well-formed pairs (two fields, a
    measure [int] accepts) sorted by key under an antisymmetric order, the
    count reducer prints exactly one Result per distinct key, in stream
    order, whose value is the first measure of the key with the others
    added in turn. *)
Theorem count_reducer_groups {B : Builtins} (le : string -> string -> Prop)
    (stdin : list string) (ps : list (string * pynum)) :
  (forall a b, le a b -> le b a -> a = b) ->
  map (decode SpecAggregator.count_per_key) stdin = map Some ps ->
  StronglySorted le (map fst ps) ->
  forall env,
    Exercise4.reducer env stdin
    = (grouped SpecAggregator.count_per_key ps, inr tt).
Proof.
  intros A D S env. rewrite count_reducer_is_scheme.
  exact (run_groups _ le A stdin ps D S).
Qed.

(** The example of the specification, [y 1, y 1, y 1], and a second key. *)
Lemma count_reducer_groups_witness :
  Exercise4.reducer (B := decimal) blank4
    [pair_line "y" "1"; pair_line "y" "1"; pair_line "y" "1"; pair_line "z" "4"]
  = ([mkResult "y" (PyInt 3); mkResult "z" (PyInt 4)], inr tt).
Proof.
  apply (count_reducer_groups (B := decimal) key_le
           [pair_line "y" "1"; pair_line "y" "1"; pair_line "y" "1";
            pair_line "z" "4"]
           [("y", PyInt 1); ("y", PyInt 1); ("y", PyInt 1); ("z", PyInt 4)]
           key_le_antisym eq_refl).
  repeat constructor.
Defined.

(** Sum per key: on every stream of well-formed pairs (two fields, a
    measure [float] accepts) sorted by key, the sum reducer prints exactly
    one Result per distinct key, in stream order, whose value is the sum
    of the measures of the key, added in turn to [0]. *)
Theorem sum_reducer_groups {B : Builtins} (le : string -> string -> Prop)
    (stdin : list string) (ps : list (string * pynum)) :
  (forall a b, le a b -> le b a -> a = b) ->
  map (decode sum_from_zero) stdin = map Some ps ->
  StronglySorted le (map fst ps) ->
  forall env,
    Exercise5.reducer env stdin = (grouped sum_from_zero ps, inr tt).
Proof.
  intros A D S env.
  rewrite sum_reducer_is_scheme
    by (exact (decoded_parses sum_from_zero stdin ps eq_refl D)).
  exact (run_groups _ le A stdin ps D S).
Qed.

(** The example of the specification, [x 1.5, x 2.5], between two other
    keys. *)
Lemma sum_reducer_groups_witness :
  Exercise5.reducer (B := decimal) blank5
    [pair_line "w" "-3"; pair_line "x" "1.5"; pair_line "x" "2.5";
     pair_line "y" "7"]
  = ([mkResult "w" (PyFloat (-3)); mkResult "x" (PyFloat 4);
      mkResult "y" (PyFloat 7)], inr tt).
Proof.
  apply (sum_reducer_groups (B := decimal) key_le
           [pair_line "w" "-3"; pair_line "x" "1.5"; pair_line "x" "2.5";
            pair_line "y" "7"]
           [("w", PyFloat (-3)); ("x", PyFloat 1.5); ("x", PyFloat 2.5);
            ("y", PyFloat 7)]
           key_le_antisym eq_refl).
  repeat constructor.
Defined.

(** Max per key: on every stream of well-formed pairs sorted by key whose
    first measure is larger than [-1], the max reducer prints exactly one
    Result per distinct key, in stream order, whose value is the largest
    measure of the key (the first one, replaced in turn by each larger
    one). *)
Theorem max_reducer_groups {B : Builtins} (le : string -> string -> Prop)
    (stdin : list string) (ps : list (string * pynum)) :
  (forall a b, le a b -> le b a -> a = b) ->
  map (decode SpecAggregator.max_per_key) stdin = map Some ps ->
  StronglySorted le (map fst ps) ->
  first_above_minus_one ps = true ->
  forall env,
    Exercise3.reducer env stdin
    = (grouped SpecAggregator.max_per_key ps, inr tt).
Proof.
  intros A D S F env. rewrite (max_reducer_is_scheme stdin ps env D F).
  exact (run_groups _ le A stdin ps D S).
Qed.

(** The example of the specification, [a 1, a 5, a 3], and a later group
    of negative measures. *)
Lemma max_reducer_groups_witness :
  Exercise3.reducer (B := decimal) blank3
    [pair_line "a" "1"; pair_line "a" "5"; pair_line "a" "3";
     pair_line "b" "-7"; pair_line "b" "-5"]
  = ([mkResult "a" (PyFloat 5); mkResult "b" (PyFloat (-5))], inr tt).
Proof.
  apply (max_reducer_groups (B := decimal) key_le
           [pair_line "a" "1"; pair_line "a" "5"; pair_line "a" "3";
            pair_line "b" "-7"; pair_line "b" "-5"]
           [("a", PyFloat 1); ("a", PyFloat 5); ("a", PyFloat 3);
            ("b", PyFloat (-7)); ("b", PyFloat (-5))]
           key_le_antisym eq_refl).
  - repeat constructor.
  - reflexivity.
Defined.

(** ** Lines built from fields, stripped and split again *)

Lemma append_assoc_s (a b c : string) : ((a ++ b) ++ c = a ++ (b ++ c))%string.
Proof. induction a as [| x a IH]; simpl; [reflexivity | rewrite IH; reflexivity]. Qed.

Lemma split_app sep a b :
  contains sep a = false ->
  split sep (a ++ String sep b) = a :: split sep b.
Proof.
  induction a as [| x a IH]; simpl.
  - intros _. rewrite Ascii.eqb_refl. reflexivity.
  - intros H. apply orb_false_elim in H. destruct H as [Hx Ha].
    rewrite Hx, (IH Ha). reflexivity.
Qed.

(** No field of a split holds the separator. *)
Lemma split_fields_without sep s :
  Forall (fun f => contains sep f = false) (split sep s).
Proof.
  induction s as [| x s IH]; simpl.
  - repeat constructor.
  - destruct (Ascii.eqb x sep) eqn:E.
    + constructor; [reflexivity | exact IH].
    + destruct (split sep s) as [| f fs]; [repeat constructor; simpl; rewrite E; reflexivity |].
      inversion IH as [| ? ? Hf Hfs]; subst. constructor; [| exact Hfs].
      simpl. rewrite E, Hf. reflexivity.
Qed.

Lemma lstrip_starts s : starts_nonspace s = true -> lstrip s = s.
Proof.
  destruct s as [| c s]; simpl; [discriminate |].
  intros H. apply negb_true_iff in H. rewrite H. reflexivity.
Qed.

Lemma ends_nonspace_nonempty s : ends_nonspace s = true -> s <> "".
Proof. destruct s; [discriminate | discriminate]. Qed.

Lemma rstrip_ends s : ends_nonspace s = true -> rstrip s = s.
Proof.
  induction s as [| c s IH]; [discriminate |].
  destruct s as [| c' s'].
  - simpl. intros H. apply negb_true_iff in H. rewrite H. reflexivity.
  - intros H. change (ends_nonspace (String c (String c' s')))
      with (ends_nonspace (String c' s')) in H.
    specialize (IH H). cbn [rstrip]. cbn [rstrip] in IH. rewrite IH. reflexivity.
Qed.

Lemma rstrip_app a b :
  rstrip b <> "" -> rstrip (a ++ b) = (a ++ rstrip b)%string.
Proof.
  intros H. induction a as [| x a IH]; [reflexivity |].
  cbn [append rstrip]. rewrite IH.
  destruct (a ++ rstrip b)%string eqn:E; [| reflexivity].
  destruct a; [destruct (H E) | discriminate].
Qed.

Lemma rstrip_newline : rstrip (String newline "") = "".
Proof. reflexivity. Qed.

Lemma rstrip_cons c t : rstrip t <> "" -> rstrip (String c t) = String c (rstrip t).
Proof. intros H. cbn [rstrip]. destruct (rstrip t); [destruct (H eq_refl) | reflexivity]. Qed.

(** Stripping the line [print] wrote for a trimmed string gives the
    string back. *)
Lemma rstrip_line s : ends_nonspace s = true -> rstrip (as_line s) = s.
Proof.
  unfold as_line. induction s as [| c s IH]; [discriminate |].
  destruct s as [| c' s'].
  - simpl. intros H. apply negb_true_iff in H. rewrite H. reflexivity.
  - intros H. change (ends_nonspace (String c (String c' s')))
      with (ends_nonspace (String c' s')) in H.
    specialize (IH H).
    change (String c (String c' s') ++ String newline "")%string
      with (String c (String c' s' ++ String newline "")).
    rewrite rstrip_cons; rewrite IH; [reflexivity | discriminate].
Qed.

Lemma strip_line s :
  starts_nonspace s = true -> ends_nonspace s = true -> strip (as_line s) = s.
Proof.
  intros Hs He. unfold strip. rewrite (rstrip_line s He).
  apply lstrip_starts, Hs.
Qed.

Lemma strip_trimmed s :
  starts_nonspace s = true -> ends_nonspace s = true -> strip s = s.
Proof.
  intros Hs He. unfold strip. rewrite (rstrip_ends s He).
  apply lstrip_starts, Hs.
Qed.

Lemma ends_nonspace_app a b :
  ends_nonspace b = true -> ends_nonspace (a ++ b) = true.
Proof.
  intros H. induction a as [| x a IH]; [exact H |].
  cbn [append]. destruct (a ++ b)%string; [discriminate IH | exact IH].
Qed.

Lemma starts_nonspace_app a b :
  starts_nonspace a = true -> starts_nonspace (a ++ b) = true.
Proof. destruct a; [discriminate | exact (fun H => H)]. Qed.

(** The five fields of a record line come back from the strip and the
    split, when none holds a tab and the line neither starts nor ends
    with whitespace. *)
Lemma record_fields d s i c p :
  contains tab d = false -> contains tab s = false ->
  contains tab i = false -> contains tab c = false ->
  contains tab p = false ->
  starts_nonspace d = true -> ends_nonspace p = true ->
  strip (record_line [d; s; i; c; p]) <> "" /\
  split tab (strip (record_line [d; s; i; c; p])) = [d; s; i; c; p].
Proof.
  intros Hd Hs Hi Hc Hp Sd Ep.
  assert (strip (record_line [d; s; i; c; p])
          = (d ++ String tab (s ++ String tab (i ++ String tab (c ++ String tab p))))%string)
    as E.
  { apply (strip_line (d ++ String tab (s ++ String tab (i ++ String tab (c ++ String tab p))))).
    - apply starts_nonspace_app, Sd.
    - apply ends_nonspace_app.
      change (String tab (s ++ String tab (i ++ String tab (c ++ String tab p))))
        with (String tab "" ++ (s ++ String tab "" ++ (i ++ String tab "" ++ (c ++ String tab "" ++ p))))%string.
      repeat apply ends_nonspace_app. exact Ep. }
  rewrite E. split.
  - destruct d; [discriminate | discriminate].
  - rewrite !split_app by assumption. rewrite (split_without _ _ Hp). reflexivity.
Qed.

(** ** The item mapper *)

Section ItemMapper.
Context {B : Builtins}.

(** A line makes the item mapper print at most one pair, and never
    raises. *)
Lemma mapper2_body_returns u line :
  snd (Exercise2.mapper_body u line) = inr tt /\
  (List.length (fst (Exercise2.mapper_body u line)) <= 1)%nat.
Proof.
  unfold Exercise2.mapper_body.
  destruct (strip line =? ""); [split; simpl; auto |].
  destruct (negb (List.length (split tab (strip line)) =? 5)%nat);
    [split; simpl; auto |].
  destruct (split tab (strip line)) as [| a [| b [| c [| d [| e [| x l]]]]]];
    try (split; simpl; auto; fail).
  destruct (py_float d); split; simpl; auto.
Qed.

Lemma mapper2_loop stdin :
  Exercise2.mapper stdin
  = (flat_map (fun line => fst (Exercise2.mapper_body tt line)) stdin, inr tt).
Proof.
  unfold Exercise2.mapper. induction stdin as [| line stdin IH]; [reflexivity |].
  cbn [for_each flat_map]. destruct (mapper2_body_returns tt line) as [R _].
  destruct (Exercise2.mapper_body tt line) as [out r]. simpl in R. subst r.
  simpl. destruct (for_each Exercise2.mapper_body tt stdin) as [out' r'].
  injection IH as -> ->. reflexivity.
Qed.
End ItemMapper.

(** The item mapper never aborts, whatever it reads; it prints at most
    one pair per line; and the lines are independent of one another: what
    it prints for a stream cut in two is what it prints for the first
    part followed by what it prints for the second. *)
Theorem item_mapper_line_by_line {B : Builtins} (stdin : list string) :
  snd (Exercise2.mapper stdin) = inr tt /\
  (List.length (printed (Exercise2.mapper stdin)) <= List.length stdin)%nat /\
  (forall pre post, stdin = pre ++ post ->
     printed (Exercise2.mapper stdin)
     = printed (Exercise2.mapper pre) ++ printed (Exercise2.mapper post)).
Proof.
  rewrite mapper2_loop. split; [reflexivity |]. split.
  - unfold printed. cbn [fst]. induction stdin as [| line stdin IH]; [simpl; lia |].
    cbn [flat_map List.length]. rewrite length_app.
    destruct (mapper2_body_returns tt line) as [_ L]. lia.
  - intros pre post ->. rewrite !mapper2_loop. unfold printed. cbn [fst].
    apply flat_map_app.
Qed.

(** A record, then a line of three fields. *)
Lemma item_mapper_line_by_line_witness :
  printed (Exercise2.mapper (B := decimal)
    [record_line ["2021-03-04 12:30"; "Vigo"; "Ropa"; "5.0"; "cash"];
     record_line ["Vigo"; "Ropa"; "5.0"]])
  = printed (Exercise2.mapper (B := decimal)
      [record_line ["2021-03-04 12:30"; "Vigo"; "Ropa"; "5.0"; "cash"]])
    ++ printed (Exercise2.mapper (B := decimal)
         [record_line ["Vigo"; "Ropa"; "5.0"]]).
Proof.
  apply (proj2 (proj2 (item_mapper_line_by_line (B := decimal)
           [record_line ["2021-03-04 12:30"; "Vigo"; "Ropa"; "5.0"; "cash"];
            record_line ["Vigo"; "Ropa"; "5.0"]]))
           [record_line ["2021-03-04 12:30"; "Vigo"; "Ropa"; "5.0"; "cash"]]
           [record_line ["Vigo"; "Ropa"; "5.0"]]).
  reflexivity.
Defined.

Lemma mapper2_on_record {B : Builtins} (d s item cost p : string) (f : float) :
  contains tab d = false -> contains tab s = false ->
  contains tab item = false -> contains tab cost = false ->
  contains tab p = false ->
  starts_nonspace d = true -> ends_nonspace p = true ->
  py_float cost = Some f ->
  Exercise2.mapper [record_line [d; s; item; cost; p]]
  = ([(item ++ String tab cost)%string], inr tt).
Proof.
  intros Hd Hs Hi Hc Hp Sd Ep P.
  destruct (record_fields d s item cost p Hd Hs Hi Hc Hp Sd Ep) as [N F].
  unfold Exercise2.mapper. cbn [for_each]. unfold Exercise2.mapper_body.
  apply String.eqb_neq in N. rewrite N, F. cbn [List.length Nat.eqb negb].
  rewrite P. reflexivity.
Qed.

(** A record of five tab-free fields that neither starts nor ends with
    whitespace, with a cost [float] accepts, makes the item mapper print
    exactly the item, a tab and the cost as written. *)
Theorem item_mapper_record {B : Builtins} (d s item cost p : string) (f : float) :
  contains tab d = false -> contains tab s = false ->
  contains tab item = false -> contains tab cost = false ->
  contains tab p = false ->
  starts_nonspace d = true -> ends_nonspace p = true ->
  py_float cost = Some f ->
  Exercise2.mapper [record_line [d; s; item; cost; p]]
  = ([(item ++ String tab cost)%string], inr tt).
Proof. apply mapper2_on_record. Qed.

(** A row as the generator writes it. *)
Lemma item_mapper_record_witness :
  Exercise2.mapper (B := decimal)
    [record_line ["2021-03-04 12:30"; "Vigo"; "Moda mujer"; "45.5"; "tarjeta regalo"]]
  = ([("Moda mujer" ++ String tab "45.5")%string], inr tt).
Proof.
  apply (item_mapper_record (B := decimal) "2021-03-04 12:30" "Vigo"
           "Moda mujer" "45.5" "tarjeta regalo" 45.5%float); reflexivity.
Defined.

(** ** From the mapper to the reducers *)

Lemma contains_app c a b : contains c (a ++ b) = contains c a || contains c b.
Proof.
  induction a as [| x a IH]; simpl; [reflexivity |].
  rewrite IH, orb_assoc. reflexivity.
Qed.

(** A pair line is read back as its two fields when neither holds a tab,
    the key starts and the measure ends with something else than
    whitespace. *)
Lemma pair_fields k v :
  contains tab k = false -> contains tab v = false ->
  starts_nonspace k = true -> ends_nonspace v = true ->
  fields (as_line (k ++ String tab v)) = [k; v].
Proof.
  intros Hk Hv Sk Ev. unfold fields. rewrite strip_line.
  - rewrite (split_app _ _ _ Hk), (split_without _ _ Hv). reflexivity.
  - apply starts_nonspace_app, Sk.
  - change (String tab v) with (String tab "" ++ v)%string.
    repeat apply ends_nonspace_app. exact Ev.
Qed.

(** Leading whitespace goes with the strip, however long. *)
Lemma strip_blank_prefix a b : lstrip a = "" -> strip (a ++ b) = strip b.
Proof.
  induction a as [| c a IH]; [reflexivity |].
  cbn [lstrip append]. destruct (is_space c) eqn:E; [| discriminate].
  intros H. rewrite (strip_leading _ _ E). apply IH, H.
Qed.

(** A printed pair whose key is empty or blank leaves the reducers a
    single field. *)
Lemma blank_key_fields k v :
  lstrip k = "" -> contains tab v = false ->
  two_fields (as_line (k ++ String tab v)) = false.
Proof.
  intros Hk Hv. unfold two_fields, fields, as_line.
  rewrite append_assoc_s, (strip_blank_prefix _ _ Hk).
  cbn [append]. rewrite (strip_leading tab) by reflexivity.
  rewrite split_without; [reflexivity |].
  unfold strip. apply lstrip_without, rstrip_without.
  rewrite contains_app, Hv. reflexivity.
Qed.

(** What the item mapper prints for a record is read back by the
    reducers as the pair of the item and the cost, when the item does not
    start and the cost does not end with whitespace. *)
Theorem item_pair_read_back {B : Builtins} (d s item cost p : string) (f : float) :
  contains tab d = false -> contains tab s = false ->
  contains tab item = false -> contains tab cost = false ->
  contains tab p = false ->
  starts_nonspace d = true -> ends_nonspace p = true ->
  starts_nonspace item = true -> ends_nonspace cost = true ->
  py_float cost = Some f ->
  map (fun o => fields (as_line o))
    (printed (Exercise2.mapper [record_line [d; s; item; cost; p]]))
  = [[item; cost]].
Proof.
  intros Hd Hs Hi Hc Hp Sd Ep Si Ec P.
  rewrite (mapper2_on_record d s item cost p f Hd Hs Hi Hc Hp Sd Ep P).
  cbn [printed fst map]. rewrite (pair_fields item cost Hi Hc Si Ec). reflexivity.
Qed.

(** An item of two words. *)
Lemma item_pair_read_back_witness :
  map (fun o => fields (as_line o))
    (printed (Exercise2.mapper (B := decimal)
       [record_line ["2021-03-04 12:30"; "Lugo"; "Moda hombre"; "120.0"; "visa"]]))
  = [["Moda hombre"; "120.0"]].
Proof.
  apply (item_pair_read_back (B := decimal) "2021-03-04 12:30" "Lugo"
           "Moda hombre" "120.0" "visa" 120%float); reflexivity.
Defined.

(** A record whose item is empty or blank, with a cost [float] accepts,
    is not skipped by the item mapper: the pair is printed with that key;
    but the printed line leaves the reducers a single field, and each of
    them discards it without a trace. *)
Theorem blank_item_lost {B : Builtins} (line d s item cost p : string) (f : float) :
  split tab (strip line) = [d; s; item; cost; p] ->
  lstrip item = "" ->
  py_float cost = Some f ->
  Exercise2.mapper [line] = ([(item ++ String tab cost)%string], inr tt) /\
  two_fields (as_line (item ++ String tab cost)) = false /\
  (forall st, Exercise3.body st (as_line (item ++ String tab cost)) = ret st) /\
  (forall st, Exercise4.body st (as_line (item ++ String tab cost)) = ret st) /\
  (forall st, Exercise5.body st (as_line (item ++ String tab cost)) = ret st) /\
  (forall st, Exercise6.body st (as_line (item ++ String tab cost)) = ret st).
Proof.
  intros F Hi P.
  assert (contains tab cost = false) as Hc.
  { pose proof (split_fields_without tab (strip line)) as A. rewrite F in A.
    rewrite Forall_forall in A. apply A. simpl. auto. }
  pose proof (blank_key_fields item cost Hi Hc) as T.
  split; [| split; [exact T |]].
  - unfold Exercise2.mapper. cbn [for_each]. unfold Exercise2.mapper_body.
    destruct (strip line =? "") eqn:E.
    + apply String.eqb_eq in E. rewrite E in F. discriminate.
    + rewrite F. cbn [List.length Nat.eqb negb]. rewrite P. reflexivity.
  - repeat split; intros st.
    + apply body3_skip, T.
    + apply body4_skip, T.
    + apply body5_skip, T.
    + apply body6_skip, T.
Qed.

(** A record with nothing between the second and the third tab. *)
Lemma blank_item_lost_witness :
  Exercise2.mapper (B := decimal)
    [record_line ["2021-03-04 12:30"; "Vigo"; ""; "9.5"; "cash"]]
  = ([String tab "9.5"], inr tt) /\
  two_fields (as_line (String tab "9.5")) = false.
Proof.
  pose proof (blank_item_lost (B := decimal)
                (record_line ["2021-03-04 12:30"; "Vigo"; ""; "9.5"; "cash"])
                "2021-03-04 12:30" "Vigo" "" "9.5" "cash" 9.5%float
                eq_refl eq_refl eq_refl) as [H1 [H2 _]].
  split; [exact H1 | exact H2].
Defined.

(** ** The hour mapper *)

Lemma split_with sep s :
  contains sep s = true -> exists a b l, split sep s = a :: b :: l.
Proof.
  induction s as [| x s IH]; simpl; [discriminate |].
  destruct (Ascii.eqb x sep) eqn:E; simpl.
  - intros _. destruct (split sep s) as [| b l] eqn:Es.
    + destruct (split_nonempty _ _ Es).
    + do 3 eexists. reflexivity.
  - intros H. destruct (IH H) as (a & b & l & ->). do 3 eexists. reflexivity.
Qed.

(** The fields before the first separator stay together. *)
Lemma split_prefix sep a b :
  contains sep a = false ->
  split sep (a ++ b) = (a ++ hd "" (split sep b))%string :: tl (split sep b).
Proof.
  induction a as [| x a IH]; simpl.
  - intros _. destruct (split sep b) as [| f fs] eqn:E;
      [destruct (split_nonempty _ _ E) | reflexivity].
  - intros H. apply orb_false_elim in H. destruct H as [Hx Ha].
    rewrite Hx, (IH Ha). reflexivity.
Qed.

Section HourMapper.
Context {B : Builtins}.

Lemma mapper5_raises line :
  no_time line = true -> Exercise5.mapper_body tt line = raise IndexError.
Proof.
  unfold no_time.
  destruct (split tab (strip line)) as [| d [| s [| i [| c [| p [| x l]]]]]] eqn:F;
    try discriminate.
  intros H. apply andb_prop in H. destruct H as [_ H].
  apply negb_true_iff in H. eapply mapper_no_space_raises; eassumption.
Qed.

Lemma mapper5_returns line :
  no_time line = false ->
  snd (Exercise5.mapper_body tt line) = inr tt /\
  (List.length (fst (Exercise5.mapper_body tt line)) <= 1)%nat.
Proof.
  unfold no_time, Exercise5.mapper_body.
  destruct (strip line =? "") eqn:E; [split; simpl; auto |].
  destruct (split tab (strip line)) as [| d [| s [| i [| c [| p [| x l]]]]]];
    try (split; simpl; auto; fail).
  cbn [negb andb List.length Nat.eqb]. intros H. apply negb_false_iff in H.
  destruct (split_with _ _ H) as (a & b & l & ->). cbn [nth_error].
  destruct (split colon b) as [| h t] eqn:Eb; [destruct (split_nonempty _ _ Eb) |].
  cbn [nth_error]. destruct (py_float c); split; simpl; auto.
Qed.

(** Without a timestamp that has no space the mapper reads every line. *)
Lemma mapper5_completes stdin :
  existsb no_time stdin = false ->
  snd (Exercise5.mapper stdin) = inr tt /\
  (List.length (printed (Exercise5.mapper stdin)) <= List.length stdin)%nat.
Proof.
  unfold Exercise5.mapper, printed.
  induction stdin as [| line stdin IH]; [split; simpl; auto |].
  cbn [existsb for_each]. intros H. apply orb_false_elim in H.
  destruct H as [H1 H2]. destruct (mapper5_returns line H1) as [R L].
  destruct (IH H2) as [R' L'].
  destruct (Exercise5.mapper_body tt line) as [out r]. simpl in R, L. subst r.
  cbn [bind]. destruct (for_each Exercise5.mapper_body tt stdin) as [out' r'].
  simpl in *. rewrite length_app. split; [exact R' | lia].
Qed.

Lemma mapper5_stops pre line post :
  existsb no_time pre = false -> no_time line = true ->
  Exercise5.mapper (pre ++ line :: post)
  = (printed (Exercise5.mapper pre), inl IndexError).
Proof.
  intros Hp Hl. destruct (mapper5_completes pre Hp) as [R _].
  unfold Exercise5.mapper, printed in *. rewrite for_each_app.
  destruct (for_each Exercise5.mapper_body tt pre) as [out [e | []]];
    [discriminate |].
  cbn [bind for_each fst]. rewrite (mapper5_raises line Hl).
  cbn [raise bind]. rewrite app_nil_r. reflexivity.
Qed.

(** The hour of a timestamp made of a date, a space, the hour, a colon
    and anything. *)
Lemma timestamp_hour date hh rest :
  contains space date = false ->
  contains space hh = false -> contains colon hh = false ->
  exists time more,
    split space (date ++ String space (hh ++ String colon rest)) = date :: time :: more /\
    nth_error (split colon time) 0 = Some hh.
Proof.
  intros Hd Hs Hc. rewrite (split_app _ _ _ Hd), (split_prefix _ _ _ Hs).
  do 2 eexists. split; [reflexivity |].
  cbn [split]. change (Ascii.eqb colon space) with false.
  destruct (split space rest) as [| r rs] eqn:E; [destruct (split_nonempty _ _ E) |].
  cbn [hd]. rewrite (split_app _ _ _ Hc). reflexivity.
Qed.
End HourMapper.

(** The hour mapper aborts exactly when it meets a five-field record
    whose timestamp holds no space; it then stops with [IndexError] at
    the first such record, having printed what the lines before it gave,
    and reads nothing after it.  Otherwise it ends normally with at most
    one pair per line. *)
Theorem hour_mapper_stops_at_first_bad_timestamp {B : Builtins}
    (stdin : list string) :
  aborted (Exercise5.mapper stdin) = existsb no_time stdin /\
  (existsb no_time stdin = false ->
     snd (Exercise5.mapper stdin) = inr tt /\
     (List.length (printed (Exercise5.mapper stdin)) <= List.length stdin)%nat) /\
  (forall pre line post,
     stdin = pre ++ line :: post ->
     existsb no_time pre = false -> no_time line = true ->
     Exercise5.mapper stdin = (printed (Exercise5.mapper pre), inl IndexError)).
Proof.
  split; [| split].
  - destruct (existsb no_time stdin) eqn:E.
    + assert (exists pre line post,
                stdin = pre ++ line :: post /\
                existsb no_time pre = false /\ no_time line = true)
        as (pre & line & post & -> & Hp & Hl).
      { clear -E. induction stdin as [| l stdin IH]; [discriminate |].
        cbn [existsb] in E. destruct (no_time l) eqn:N.
        - exists [], l, stdin. repeat split. exact N.
        - destruct (IH E) as (pre & line & post & -> & Hp & Hl).
          exists (l :: pre), line, post. repeat split; [| exact Hl].
          cbn [existsb]. rewrite N, Hp. reflexivity. }
      rewrite (mapper5_stops pre line post Hp Hl). reflexivity.
    + unfold aborted. rewrite (proj1 (mapper5_completes stdin E)). reflexivity.
  - apply mapper5_completes.
  - intros pre line post -> Hp Hl. apply mapper5_stops; assumption.
Qed.

(** A good record, a record dated without a time, a good record. *)
Lemma hour_mapper_stops_at_first_bad_timestamp_witness :
  Exercise5.mapper (B := decimal)
    ([record_line ["2021-03-04 12:30"; "Vigo"; "Ropa"; "5.0"; "cash"]]
     ++ record_line ["2021-03-04"; "Vigo"; "Ropa"; "6.0"; "cash"]
     :: [record_line ["2021-03-04 18:05"; "Lugo"; "Cine"; "7.5"; "visa"]])
  = (printed (Exercise5.mapper (B := decimal)
       [record_line ["2021-03-04 12:30"; "Vigo"; "Ropa"; "5.0"; "cash"]]),
     inl IndexError).
Proof.
  apply (proj2 (proj2 (hour_mapper_stops_at_first_bad_timestamp (B := decimal) _))
           [record_line ["2021-03-04 12:30"; "Vigo"; "Ropa"; "5.0"; "cash"]]
           (record_line ["2021-03-04"; "Vigo"; "Ropa"; "6.0"; "cash"])
           [record_line ["2021-03-04 18:05"; "Lugo"; "Cine"; "7.5"; "visa"]]
           eq_refl eq_refl eq_refl).
Defined.

(** A record whose timestamp is a date, a space, an hour, a colon and
    anything more (the generator's [%Y-%m-%d %H:%M]) makes the hour
    mapper print the hour, a tab and the cost, when the fields hold no
    tab, the date and the hour no space, the hour no colon, the line does
    not start or end with whitespace and [float] accepts the cost. *)
Theorem hour_mapper_record {B : Builtins}
    (date hh rest s item cost p : string) (f : float) :
  contains tab date = false -> contains tab hh = false ->
  contains tab rest = false -> contains tab s = false ->
  contains tab item = false -> contains tab cost = false ->
  contains tab p = false ->
  contains space date = false ->
  contains space hh = false -> contains colon hh = false ->
  starts_nonspace date = true -> ends_nonspace p = true ->
  py_float cost = Some f ->
  Exercise5.mapper
    [record_line [(date ++ String space (hh ++ String colon rest))%string;
                  s; item; cost; p]]
  = ([(hh ++ String tab cost)%string], inr tt).
Proof.
  intros Td Th Tr Ts Ti Tc Tp Sd Sh Ch Nd Ep P.
  assert (contains tab (date ++ String space (hh ++ String colon rest)) = false) as Tdt.
  { rewrite contains_app, Td. cbn [contains orb].
    change (Ascii.eqb space tab) with false. rewrite contains_app, Th.
    cbn [contains orb]. change (Ascii.eqb colon tab) with false. exact Tr. }
  destruct (record_fields _ s item cost p Tdt Ts Ti Tc Tp
              (starts_nonspace_app _ _ Nd) Ep) as [N F].
  destruct (timestamp_hour date hh rest Sd Sh Ch) as (time & more & E1 & E2).
  unfold Exercise5.mapper. cbn [for_each]. unfold Exercise5.mapper_body.
  apply String.eqb_neq in N. rewrite N, F. cbn [List.length Nat.eqb negb].
  rewrite E1. cbn [nth_error]. cbn [nth_error] in E2. rewrite E2, P. reflexivity.
Qed.

(** A row as the generator writes it. *)
Lemma hour_mapper_record_witness :
  Exercise5.mapper (B := decimal)
    [record_line ["2021-03-04 18:05"; "A Corunha"; "Cine"; "7.5"; "bizum"]]
  = ([("18" ++ String tab "7.5")%string], inr tt).
Proof.
  apply (hour_mapper_record (B := decimal) "2021-03-04" "18" "05" "A Corunha"
           "Cine" "7.5" "bizum" 7.5%float); reflexivity.
Defined.

(** ** How the reducers end *)

Section Ending.
Variables (S : Type) (body : S -> string -> M Result S) (ok : string -> bool).
Hypothesis body_returns :
  forall st line, ok line = true -> exists out st', body st line = (out, inr st').
Hypothesis body_fails :
  forall st line, ok line = false -> snd (body st line) = inl ValueError.

Lemma for_each_returns stdin : forall st,
  forallb ok stdin = true -> exists out st', for_each body st stdin = (out, inr st').
Proof.
  induction stdin as [| line stdin IH]; intros st H; cbn [for_each].
  - do 2 eexists. reflexivity.
  - cbn [forallb] in H. apply andb_prop in H. destruct H as [H1 H2].
    destruct (body_returns st line H1) as (o1 & st1 & ->).
    destruct (IH st1 H2) as (o2 & st2 & E). cbn [bind]. rewrite E.
    do 2 eexists. reflexivity.
Qed.

Lemma for_each_fails stdin : forall st,
  forallb ok stdin = false -> snd (for_each body st stdin) = inl ValueError.
Proof.
  induction stdin as [| line stdin IH]; intros st H; [discriminate |].
  cbn [forallb for_each] in *. destruct (ok line) eqn:E.
  - destruct (body_returns st line E) as (o1 & st1 & ->). cbn [bind].
    specialize (IH st1 H). destruct (for_each body st1 stdin) as [o2 r].
    exact IH.
  - apply bind_raises, body_fails, E.
Qed.
End Ending.

Section ReducerEnding.
Context {B : Builtins}.

Lemma body3_returns st line :
  parses_float line = true -> exists out st', Exercise3.body st line = (out, inr st').
Proof.
  unfold parses_float, Exercise3.body.
  destruct (fields line) as [| k [| m [| x l]]]; try (do 2 eexists; reflexivity).
  destruct (py_float m); [| discriminate]. intros _.
  destruct (Exercise3.oldKey st) as [k0 |]; cbn [truthy andb].
  - destruct (negb (k0 =? "") && differs (Some k0) k); do 2 eexists; reflexivity.
  - do 2 eexists. reflexivity.
Qed.

Lemma body3_fails st line :
  parses_float line = false -> snd (Exercise3.body st line) = inl ValueError.
Proof.
  unfold parses_float. destruct (fields line) as [| k [| m [| x l]]] eqn:F;
    try discriminate.
  destruct (py_float m) eqn:P; [discriminate |]. intros _.
  rewrite (body3_raises st line k m F P). reflexivity.
Qed.

Lemma body4_returns st line :
  parses_int line = true -> exists out st', Exercise4.body st line = (out, inr st').
Proof.
  unfold parses_int, Exercise4.body.
  destruct (fields line) as [| k [| m [| x l]]]; try (do 2 eexists; reflexivity).
  destruct (py_int m); [| discriminate]. intros _.
  destruct (Exercise4.oldKey st) as [k0 |]; cbn [truthy andb].
  - destruct (negb (k0 =? "") && differs (Some k0) k); do 2 eexists; reflexivity.
  - do 2 eexists. reflexivity.
Qed.

Lemma body4_fails st line :
  parses_int line = false -> snd (Exercise4.body st line) = inl ValueError.
Proof.
  unfold parses_int. destruct (fields line) as [| k [| m [| x l]]] eqn:F;
    try discriminate.
  destruct (py_int m) eqn:P; [discriminate |]. intros _.
  rewrite (body4_raises st line k m F P). reflexivity.
Qed.

Lemma body5_returns st line :
  parses_float line = true -> exists out st', Exercise5.body st line = (out, inr st').
Proof.
  unfold parses_float, Exercise5.body.
  destruct (fields line) as [| k [| m [| x l]]]; try (do 2 eexists; reflexivity).
  destruct (py_float m); [| discriminate]. intros _.
  destruct (Exercise5.oldKey st) as [k0 |]; cbn [truthy andb].
  - destruct (negb (k0 =? "") && differs (Some k0) k); do 2 eexists; reflexivity.
  - do 2 eexists. reflexivity.
Qed.

Lemma body5_fails st line :
  parses_float line = false -> snd (Exercise5.body st line) = inl ValueError.
Proof.
  unfold parses_float. destruct (fields line) as [| k [| m [| x l]]] eqn:F;
    try discriminate.
  destruct (py_float m) eqn:P; [discriminate |]. intros _.
  exact (body5_raises st line k m F P).
Qed.

Lemma body6_returns st line :
  parses_float line = true -> exists out st', Exercise6.body st line = (out, inr st').
Proof.
  unfold parses_float, Exercise6.body.
  destruct (fields line) as [| k [| m [| x l]]]; try (do 2 eexists; reflexivity).
  destruct (py_float m); [| discriminate]. intros _. do 2 eexists. reflexivity.
Qed.

Lemma body6_fails st line :
  parses_float line = false -> snd (Exercise6.body st line) = inl ValueError.
Proof.
  unfold parses_float. destruct (fields line) as [| k [| m [| x l]]] eqn:F;
    try discriminate.
  destruct (py_float m) eqn:P; [discriminate |]. intros _.
  rewrite (body6_raises st line k m F P). reflexivity.
Qed.

Lemma finish3_returns st : snd (Exercise3.finish st) = inr tt.
Proof. unfold Exercise3.finish. destruct (Exercise3.oldKey st); reflexivity. Qed.

Lemma finish4_returns st : snd (Exercise4.finish st) = inr tt.
Proof. unfold Exercise4.finish. destruct (Exercise4.oldKey st); reflexivity. Qed.

Lemma finish5_returns st : snd (Exercise5.finish st) = inr tt.
Proof. unfold Exercise5.finish. destruct (Exercise5.oldKey st); reflexivity. Qed.
End ReducerEnding.

Lemma bind_ends {O A} (m : M O A) (f : A -> M O unit) (b : bool) :
  (b = true -> exists out a, m = (out, inr a)) ->
  (b = false -> snd m = inl ValueError) ->
  (forall a, snd (f a) = inr tt) ->
  snd (bind m f) = if b then inr tt else inl ValueError.
Proof.
  intros Ht Hf Hr. destruct b.
  - destruct (Ht eq_refl) as (out & a & ->). cbn [bind].
    specialize (Hr a). destruct (f a). exact Hr.
  - apply bind_raises, Hf. reflexivity.
Qed.

(** Each reducer ends in one of two ways: normally, when the parser of
    its domain accepts the measure of every line that splits in two, and
    with [ValueError] otherwise; printing a Result never fails, since the
    key is only concatenated when it is a string. *)
Theorem reducers_end_normally_or_with_ValueError {B : Builtins}
    (stdin : list string) :
  (forall env, snd (Exercise3.reducer env stdin)
               = if forallb parses_float stdin then inr tt else inl ValueError) /\
  (forall env, snd (Exercise4.reducer env stdin)
               = if forallb parses_int stdin then inr tt else inl ValueError) /\
  (forall env, snd (Exercise5.reducer env stdin)
               = if forallb parses_float stdin then inr tt else inl ValueError) /\
  (forall env, snd (Exercise6.reducer env stdin)
               = if forallb parses_float stdin then inr tt else inl ValueError).
Proof.
  repeat split; intros env.
  - apply bind_ends.
    + apply (for_each_returns _ _ _ body3_returns).
    + apply (for_each_fails _ _ _ body3_returns body3_fails).
    + apply finish3_returns.
  - apply bind_ends.
    + apply (for_each_returns _ _ _ body4_returns).
    + apply (for_each_fails _ _ _ body4_returns body4_fails).
    + apply finish4_returns.
  - apply bind_ends.
    + apply (for_each_returns _ _ _ body5_returns).
    + apply (for_each_fails _ _ _ body5_returns body5_fails).
    + apply finish5_returns.
  - apply bind_ends.
    + apply (for_each_returns _ _ _ body6_returns).
    + apply (for_each_fails _ _ _ body6_returns body6_fails).
    + reflexivity.
Qed.

(** ** One Result per run of equal keys, sorted or not *)

Section Boundaries.
Variables (S : Type) (body : S -> string -> M Result S).
Variables (okey : S -> option string) (acc : S -> pynum).
Hypothesis body_skip :
  forall st line, two_fields line = false -> body st line = ret st.
Hypothesis body_key :
  forall st line k m out st',
    fields line = [k; m] -> body st line = (out, inr st') -> okey st' = Some k.
Hypothesis body_prints :
  forall st line k m out st',
    fields line = [k; m] -> body st line = (out, inr st') ->
    out = if truthy (okey st) && differs (okey st) k
          then flush (okey st) (acc st) else [].

Lemma keys_of_skip line stdin :
  two_fields line = false -> keys_of (line :: stdin) = keys_of stdin.
Proof.
  unfold keys_of, two_fields. cbn [flat_map].
  destruct (fields line) as [| k [| m [| x l]]]; try reflexivity. discriminate.
Qed.

Lemma keys_of_pair line stdin k m :
  fields line = [k; m] -> keys_of (line :: stdin) = k :: keys_of stdin.
Proof. unfold keys_of. cbn [flat_map]. intros ->. reflexivity. Qed.

Lemma for_each_runs stdin : forall st out st',
  truthy (okey st) = is_not_None (okey st) ->
  for_each body st stdin = (out, inr st') ->
  map key out ++ key_list (okey st') = runs (key_list (okey st) ++ keys_of stdin).
Proof.
  induction stdin as [| line stdin IH]; intros st out st' T; cbn [for_each].
  - unfold ret. intros [= <- <-]. destruct (okey st); reflexivity.
  - destruct (body st line) as [o1 [e | st1]] eqn:E; cbn [bind]; [discriminate |].
    destruct (for_each body st1 stdin) as [o2 r] eqn:E2. intros [= <- ->].
    destruct (two_fields line) eqn:F.
    + unfold two_fields in F.
      destruct (fields line) as [| k [| m [| x l]]] eqn:Fl; try discriminate.
      pose proof (body_key _ _ _ _ _ _ Fl E) as K.
      pose proof (body_prints _ _ _ _ _ _ Fl E) as P.
      assert (truthy (okey st1) = is_not_None (okey st1)) as T1.
      { rewrite K. simpl. apply fields_key_nonempty in Fl.
        apply String.eqb_neq in Fl. rewrite Fl. reflexivity. }
      specialize (IH st1 o2 st' T1 E2). rewrite K in IH. cbn [key_list app] in IH.
      rewrite (keys_of_pair _ _ _ _ Fl), map_app, <- app_assoc, IH.
      rewrite P, T. destruct (okey st) as [k0 |]; cbn [is_not_None andb key_list app];
        [| reflexivity].
      cbn [differs runs]. rewrite (String.eqb_sym k0 k).
      destruct (k =? k0); reflexivity.
    + rewrite (body_skip _ _ F) in E. unfold ret in E. injection E as <- <-.
      rewrite (keys_of_skip _ _ F). apply (IH _ _ _ T E2).
Qed.
End Boundaries.

Section ReducerRuns.
Context {B : Builtins}.

Lemma body3_prints st line k m out st' :
  fields line = [k; m] -> Exercise3.body st line = (out, inr st') ->
  out = if truthy (Exercise3.oldKey st) && differs (Exercise3.oldKey st) k
        then flush (Exercise3.oldKey st) (Exercise3.maxSale st) else [].
Proof.
  unfold Exercise3.body. intros ->. destruct (py_float m); [| discriminate].
  destruct (truthy (Exercise3.oldKey st) && differs (Exercise3.oldKey st) k).
  - destruct (Exercise3.oldKey st); simpl; [| discriminate].
    intros [= <- _]. reflexivity.
  - intros [= <- _]. reflexivity.
Qed.

Lemma body4_prints st line k m out st' :
  fields line = [k; m] -> Exercise4.body st line = (out, inr st') ->
  out = if truthy (Exercise4.oldKey st) && differs (Exercise4.oldKey st) k
        then flush (Exercise4.oldKey st) (Exercise4.count st) else [].
Proof.
  unfold Exercise4.body. intros ->. destruct (py_int m); [| discriminate].
  destruct (truthy (Exercise4.oldKey st) && differs (Exercise4.oldKey st) k).
  - destruct (Exercise4.oldKey st); simpl; [| discriminate].
    intros [= <- _]. reflexivity.
  - intros [= <- _]. reflexivity.
Qed.

Lemma body5_prints st line k m out st' :
  fields line = [k; m] -> Exercise5.body st line = (out, inr st') ->
  out = if truthy (Exercise5.oldKey st) && differs (Exercise5.oldKey st) k
        then flush (Exercise5.oldKey st) (Exercise5.salesTotal st) else [].
Proof.
  unfold Exercise5.body. intros ->.
  destruct (truthy (Exercise5.oldKey st) && differs (Exercise5.oldKey st) k).
  - destruct (Exercise5.oldKey st); simpl; [| discriminate].
    destruct (py_float m); simpl; [| discriminate]. intros [= <- _]. reflexivity.
  - rewrite bind_ret_l. destruct (py_float m); [| discriminate].
    intros [= <- _]. reflexivity.
Qed.

Lemma returned_loop {S} (m : M Result S) (f : S -> M Result unit) :
  snd (bind m f) = inr tt -> exists out st, m = (out, inr st).
Proof.
  destruct m as [out [e | st]]; [discriminate |]. intros _.
  do 2 eexists. reflexivity.
Qed.

Lemma map_key_flush k v : map key (flush k v) = key_list k.
Proof. destruct k; reflexivity. Qed.

Lemma reducer3_runs env stdin :
  snd (Exercise3.reducer env stdin) = inr tt ->
  map key (printed (Exercise3.reducer env stdin)) = runs (keys_of stdin).
Proof.
  intros H. destruct (returned_loop _ _ H) as (out & st & E).
  rewrite (reducer3_flush env stdin out st E). cbn [printed fst].
  rewrite map_app, map_key_flush.
  rewrite <- (for_each_open_key _ _ Exercise3.oldKey body3_skip body3_key _ _ _ _ E
              : Exercise3.oldKey st = open_key stdin).
  exact (for_each_runs _ _ Exercise3.oldKey Exercise3.maxSale body3_skip body3_key
           body3_prints stdin (Exercise3.start env) out st eq_refl E).
Qed.

Lemma reducer4_runs env stdin :
  snd (Exercise4.reducer env stdin) = inr tt ->
  map key (printed (Exercise4.reducer env stdin)) = runs (keys_of stdin).
Proof.
  intros H. destruct (returned_loop _ _ H) as (out & st & E).
  rewrite (reducer4_flush env stdin out st E). cbn [printed fst].
  rewrite map_app, map_key_flush.
  rewrite <- (for_each_open_key _ _ Exercise4.oldKey body4_skip body4_key _ _ _ _ E
              : Exercise4.oldKey st = open_key stdin).
  exact (for_each_runs _ _ Exercise4.oldKey Exercise4.count body4_skip body4_key
           body4_prints stdin (Exercise4.start env) out st eq_refl E).
Qed.

Lemma reducer5_runs env stdin :
  snd (Exercise5.reducer env stdin) = inr tt ->
  map key (printed (Exercise5.reducer env stdin)) = runs (keys_of stdin).
Proof.
  intros H. destruct (returned_loop _ _ H) as (out & st & E).
  rewrite (reducer5_flush env stdin out st E). cbn [printed fst].
  rewrite map_app, map_key_flush.
  rewrite <- (for_each_open_key _ _ Exercise5.oldKey body5_skip body5_key _ _ _ _ E
              : Exercise5.oldKey st = open_key stdin).
  exact (for_each_runs _ _ Exercise5.oldKey Exercise5.salesTotal body5_skip body5_key
           body5_prints stdin (Exercise5.start env) out st eq_refl E).
Qed.
End ReducerRuns.

(** Whatever the order of the stream, a grouped reducer that ends
    normally has printed one Result per maximal run of equal adjacent
    keys, in stream order, under the key of the run: a key that comes
    back after another one gets a second Result. *)
Theorem one_result_per_run {B : Builtins} (stdin : list string) :
  (forall env, snd (Exercise3.reducer env stdin) = inr tt ->
     map key (printed (Exercise3.reducer env stdin)) = runs (keys_of stdin)) /\
  (forall env, snd (Exercise4.reducer env stdin) = inr tt ->
     map key (printed (Exercise4.reducer env stdin)) = runs (keys_of stdin)) /\
  (forall env, snd (Exercise5.reducer env stdin) = inr tt ->
     map key (printed (Exercise5.reducer env stdin)) = runs (keys_of stdin)).
Proof.
  repeat split; intros env.
  - apply reducer3_runs.
  - apply reducer4_runs.
  - apply reducer5_runs.
Qed.

(** The key [a] before and after the key [b]: three Results. *)
Lemma one_result_per_run_witness :
  map key (printed (Exercise4.reducer (B := decimal) blank4
     [pair_line "a" "1"; pair_line "a" "2"; pair_line "b" "5"; pair_line "a" "4"]))
  = ["a"; "b"; "a"].
Proof.
  apply (proj1 (proj2 (one_result_per_run (B := decimal)
           [pair_line "a" "1"; pair_line "a" "2"; pair_line "b" "5";
            pair_line "a" "4"])) blank4).
  reflexivity.
Defined.

(** ** What is on stdout when a reducer aborts *)

Lemma loop_then_raise {S} (body : S -> string -> M Result S)
    (f : S -> M Result unit) st pre line post out st' o :
  for_each body st pre = (out, inr st') ->
  body st' line = (o, inl ValueError) ->
  (s <- for_each body st (pre ++ line :: post) ;; f s) = (out ++ o, inl ValueError).
Proof.
  intros E R. rewrite for_each_app, E. cbn [bind for_each]. rewrite R. reflexivity.
Qed.

Section AbortOutput.
Context {B : Builtins}.

Lemma body5_raise_output st line k m :
  fields line = [k; m] -> py_float m = None ->
  truthy (Exercise5.oldKey st) = is_not_None (Exercise5.oldKey st) ->
  Exercise5.body st line
  = ((if differs (Exercise5.oldKey st) k
      then flush (Exercise5.oldKey st) (Exercise5.salesTotal st) else []),
     inl ValueError).
Proof.
  unfold Exercise5.body. intros -> -> T. rewrite T.
  destruct (Exercise5.oldKey st) as [k0 |]; cbn [is_not_None andb differs flush].
  - destruct (negb (k0 =? k)); reflexivity.
  - reflexivity.
Qed.
End AbortOutput.

(** When a line that splits in two carries a measure the parser rejects,
    the max and the count reducer stop having printed only what the lines
    before it made the loop print: the group that was open is never
    flushed.  The sum reducer tests the key first, so it also prints the
    total of the open group when the offending line bears another key. *)
Theorem output_of_aborted_run {B : Builtins} (pre post : list string)
    (line k m : string) :
  fields line = [k; m] ->
  (py_float m = None ->
     (forall env out st,
        for_each Exercise3.body (Exercise3.start env) pre = (out, inr st) ->
        Exercise3.reducer env (pre ++ line :: post) = (out, inl ValueError)) /\
     (forall env out st,
        for_each Exercise5.body (Exercise5.start env) pre = (out, inr st) ->
        Exercise5.reducer env (pre ++ line :: post)
        = (out ++ (if differs (Exercise5.oldKey st) k
                   then flush (Exercise5.oldKey st) (Exercise5.salesTotal st)
                   else []),
           inl ValueError))) /\
  (py_int m = None ->
     forall env out st,
       for_each Exercise4.body (Exercise4.start env) pre = (out, inr st) ->
       Exercise4.reducer env (pre ++ line :: post) = (out, inl ValueError)).
Proof.
  intros F. split; [intros P; split |]; [| | intros P]; intros env out st E.
  - unfold Exercise3.reducer.
    rewrite (loop_then_raise _ _ _ _ _ post _ _ [] E (body3_raises st line k m F P)).
    rewrite app_nil_r. reflexivity.
  - unfold Exercise5.reducer.
    apply (loop_then_raise _ _ _ _ _ post _ _ _ E).
    apply (body5_raise_output st line k m F P).
    apply (for_each_key_truthy _ _ Exercise5.oldKey body5_skip body5_key
             pre (Exercise5.start env) out st); [reflexivity | exact E].
  - unfold Exercise4.reducer.
    rewrite (loop_then_raise _ _ _ _ _ post _ _ [] E (body4_raises st line k m F P)).
    rewrite app_nil_r. reflexivity.
Qed.

(** Two pairs of key [a], then a pair of key [b] with the measure [abc]:
    the max reducer prints nothing, the sum reducer the total of [a]. *)
Lemma output_of_aborted_run_witness :
  Exercise3.reducer (B := decimal) blank3
    ([pair_line "a" "1"; pair_line "a" "2"] ++ pair_line "b" "abc" :: [])
  = ([], inl ValueError) /\
  Exercise5.reducer (B := decimal) blank5
    ([pair_line "a" "1"; pair_line "a" "2"] ++ pair_line "b" "abc" :: [])
  = ([] ++ [mkResult "a" (PyFloat 3)], inl ValueError).
Proof.
  pose proof (output_of_aborted_run (B := decimal)
                [pair_line "a" "1"; pair_line "a" "2"] []
                (pair_line "b" "abc") "b" "abc" eq_refl) as [HF _].
  destruct (HF eq_refl) as [H3 H5]. split.
  - apply (H3 blank3 [] (Exercise3.mkVars (PyFloat 2) (Some "a"))). reflexivity.
  - apply (H5 blank5 [] (Exercise5.mkVars (PyFloat 3) (Some "a"))). reflexivity.
Defined.

(** ** The generator: weighted choices *)

Section WeightedChoice.
Import Generator.
Variable uniform : pynum -> pynum -> float.

Lemma scan_member {A} (r : pynum) (cw : list (A * pynum)) : forall upto c,
  scan r upto cw = Some c -> In c (map fst cw).
Proof.
  induction cw as [| [c0 w] cw IH]; intros upto c; cbn [scan map fst].
  - discriminate.
  - destruct (py_ge (py_add upto w) r).
    + intros [= <-]. left. reflexivity.
    + intros H. right. eapply IH, H.
Qed.

Lemma combine_fst_subset {A C} (l : list A) (l' : list C) c :
  In c (map fst (combine l l')) -> In c l.
Proof.
  revert l'. induction l as [| a l IH]; intros [| b l']; simpl; auto.
  - intros [].
  - intros [-> | H]; [left; reflexivity | right; eapply IH, H].
Qed.

Lemma last_choice_member {A} (choices : list A) :
  choices <> [] -> exists c, last_choice choices = inr c /\ In c choices.
Proof.
  intros N. unfold last_choice. destruct (rev choices) as [| c l] eqn:E.
  - apply (f_equal (@rev A)) in E. rewrite rev_involutive in E. destruct (N E).
  - exists c. split; [reflexivity |]. apply in_rev. rewrite E. left. reflexivity.
Qed.

Lemma weighted_choice_member {A} (choices : list A) (weights : list pynum) :
  choices <> [] ->
  exists c, weighted_choice uniform choices weights = inr c /\ In c choices.
Proof.
  intros N. unfold weighted_choice.
  destruct (scan _ _ (combine choices weights)) as [c |] eqn:E.
  - exists c. split; [reflexivity |].
    eapply combine_fst_subset, scan_member, E.
  - apply last_choice_member, N.
Qed.
End WeightedChoice.

(** [weighted_choice] returns one of the choices, whatever the weights
    and the draw, also when the two lists differ in length; on an empty
    list of choices it raises [IndexError]. *)
Theorem weighted_choice_in_choices (uniform : pynum -> pynum -> float)
    (A : Type) (choices : list A) (weights : list pynum) :
  (choices = [] ->
     Generator.weighted_choice uniform choices weights = inl IndexError) /\
  (choices <> [] ->
     exists c, Generator.weighted_choice uniform choices weights = inr c /\
               In c choices).
Proof.
  split.
  - intros ->. reflexivity.
  - apply weighted_choice_member.
Qed.

(** Three choices, two weights, a draw beyond the total: the last
    choice. *)
Lemma weighted_choice_in_choices_witness :
  exists c,
    Generator.weighted_choice (fun _ _ => 9%float) ["a"; "b"; "c"]
      [PyFloat 1; PyFloat 2] = inr c /\
    In c ["a"; "b"; "c"].
Proof.
  apply (proj2 (weighted_choice_in_choices (fun _ _ => 9%float) string
                  ["a"; "b"; "c"] [PyFloat 1; PyFloat 2])).
  discriminate.
Defined.

(** Whatever the draw, [generate_city] returns one of the twenty cities,
    [generate_hour] an hour from 9 to 20, and [generate_payment_method] a
    method of the list of the price band: below 50.0, above 300.0, or
    neither (where a price that is not a number falls too). *)
Theorem generated_values_in_tables (uniform : pynum -> pynum -> float) :
  (exists c, Generator.generate_city uniform = inr c /\ In c Generator.cities) /\
  (exists h, Generator.generate_hour uniform = inr h /\ (9 <= h <= 20)%Z) /\
  (forall price,
     exists m,
       Generator.generate_payment_method uniform price = inr m /\
       In m (if Generator.py_lt price Generator.LOW_PRICE_THRESHOLD
             then Generator.low_methods
             else if py_gt price Generator.HIGH_PRICE_THRESHOLD
                  then Generator.high_methods
                  else Generator.medium_methods)).
Proof.
  split; [| split].
  - apply weighted_choice_member. discriminate.
  - destruct (weighted_choice_member uniform Generator.hours
                Generator.hour_weights) as (h & E & I); [discriminate |].
    exists h. split; [exact E |].
    unfold Generator.hours in I. cbn [In] in I.
    repeat (destruct I as [<- | I]; [lia |]). destruct I.
  - intros price. unfold Generator.generate_payment_method.
    destruct (Generator.py_lt price Generator.LOW_PRICE_THRESHOLD);
      [| destruct (py_gt price Generator.HIGH_PRICE_THRESHOLD)];
      apply weighted_choice_member; discriminate.
Qed.

(** ** The generator: what is written to the file *)

Lemma concat_join sep (l1 l2 : list string) :
  l1 <> [] -> l2 <> [] ->
  String.concat sep (l1 ++ l2)
  = (String.concat sep l1 ++ sep ++ String.concat sep l2)%string.
Proof.
  intros N1 N2. induction l1 as [| a l1 IH]; [destruct (N1 eq_refl) |].
  destruct l1 as [| b l1].
  - cbn [app String.concat]. destruct l2; [destruct (N2 eq_refl) | reflexivity].
  - change (String.concat sep ((a :: b :: l1) ++ l2))
      with (a ++ sep ++ String.concat sep ((b :: l1) ++ l2))%string.
    rewrite IH by discriminate.
    change (String.concat sep (a :: b :: l1))
      with (a ++ sep ++ String.concat sep (b :: l1))%string.
    rewrite !append_assoc_s. reflexivity.
Qed.

Lemma append_empty_r (s : string) : (s ++ "")%string = s.
Proof. induction s as [| c s IH]; simpl; [reflexivity | rewrite IH; reflexivity]. Qed.

Section ToFile.
Import Generator.
Variable row : nat -> string.
Variables num_rows batch_size : Z.
Hypothesis batch_size_pos : (0 < batch_size)%Z.

Let batches : Z := ((num_rows + batch_size - 1) / batch_size)%Z.
Let total : nat := Z.to_nat num_rows.

Lemma batches_bounds : (num_rows <= batches * batch_size < num_rows + batch_size)%Z.
Proof.
  unfold batches.
  pose proof (Z.div_mod (num_rows + batch_size - 1) batch_size) as D.
  pose proof (Z.mod_pos_bound (num_rows + batch_size - 1) batch_size batch_size_pos) as M.
  specialize (D ltac:(lia)). nia.
Qed.

(** The batches left to write complete the file. *)
Lemma batches_loop j : forall (k : nat) (file : string),
  (Z.of_nat k * batch_size < num_rows)%Z ->
  Z.of_nat (k + j) = batches ->
  (file ++ String.concat LF
             (map row (seq (Z.to_nat (Z.of_nat k * batch_size))
                           (total - Z.to_nat (Z.of_nat k * batch_size)))))%string
  = String.concat LF (map row (seq 0 total)) ->
  fst (fold_left (write_batch row num_rows batch_size)
         (map Z.of_nat (seq k j))
         (file, Z.to_nat (Z.of_nat k * batch_size)))
  = String.concat LF (map row (seq 0 total)).
Proof.
  pose proof batches_bounds as BB.
  induction j as [| j IH]; intros k file Hk Hj Hf.
  - exfalso. rewrite Nat.add_0_r in Hj. rewrite Hj in Hk. lia.
  - cbn [seq map fold_left]. unfold write_batch at 2.
    set (n := Z.to_nat (Z.of_nat k * batch_size)) in *.
    set (e := Z.min (Z.of_nat k * batch_size + batch_size) num_rows).
    assert (Z.of_nat n = Z.of_nat k * batch_size)%Z as En by (unfold n; lia).
    destruct (e <? num_rows)%Z eqn:L.
    + apply Z.ltb_lt in L.
      assert (e = Z.of_nat (S k) * batch_size)%Z as Ee by (unfold e in *; lia).
      assert ((n + Z.to_nat (e - Z.of_nat k * batch_size))%nat
              = Z.to_nat (Z.of_nat (S k) * batch_size)) as En' by lia.
      rewrite En'. apply IH; [lia | lia |].
      rewrite <- Hf. rewrite !append_assoc_s. f_equal.
      replace (total - n)%nat
        with (Z.to_nat (e - Z.of_nat k * batch_size)
              + (total - Z.to_nat (Z.of_nat (S k) * batch_size)))%nat
        by (unfold total; lia).
      rewrite seq_app, map_app, En'.
      rewrite concat_join; [reflexivity | |].
      * destruct (Z.to_nat (e - Z.of_nat k * batch_size)) eqn:Z0; [lia | discriminate].
      * destruct (total - Z.to_nat (Z.of_nat (S k) * batch_size))%nat eqn:Z0;
          [unfold total in Z0; lia | discriminate].
    + apply Z.ltb_ge in L.
      assert (e = num_rows) as Ee by (unfold e in *; lia).
      assert (j = 0)%nat as -> by nia.
      cbn [seq map fold_left fst]. rewrite <- Hf. f_equal. f_equal. f_equal.
      f_equal. unfold total. lia.
Qed.

Lemma to_file_content :
  generate_to_file row num_rows batch_size
  = inr (String.concat LF (map row (seq 0 total))).
Proof.
  pose proof batches_bounds as BB. unfold generate_to_file.
  destruct (batch_size =? 0)%Z eqn:E; [lia |]. f_equal. fold batches.
  destruct (Z.to_nat batches) as [| b] eqn:Eb.
  - unfold range. rewrite Eb. cbn [seq map fold_left fst].
    assert (total = 0)%nat as -> by (unfold total; lia). reflexivity.
  - unfold range. rewrite Eb.
    apply (batches_loop (S b) 0 ""); [lia | lia |].
    cbn [Z.of_nat Z.mul Z.to_nat append]. rewrite Nat.sub_0_r. reflexivity.
Qed.
End ToFile.

(** With a positive batch size, [generate_to_file] writes exactly
    [num_rows] rows, the rows generated in order, separated by single line
    feeds with none after the last, whatever the batch size: batches do
    not show in the file.  For [num_rows <= 0] the file is empty. *)
Theorem to_file_rows_joined (row : nat -> string) (num_rows batch_size : Z) :
  (0 < batch_size)%Z ->
  Generator.generate_to_file row num_rows batch_size
  = inr (String.concat Generator.LF (map row (seq 0 (Z.to_nat num_rows)))).
Proof. apply to_file_content. Qed.

(** Seven rows in batches of three. *)
Lemma to_file_rows_joined_witness :
  Generator.generate_to_file (fun n => String (ascii_of_nat (97 + n)) "") 7 3
  = inr ("a" ++ Generator.LF ++ "b" ++ Generator.LF ++ "c" ++ Generator.LF ++ "d"
         ++ Generator.LF ++ "e" ++ Generator.LF ++ "f" ++ Generator.LF ++ "g")%string.
Proof.
  apply (to_file_rows_joined (fun n => String (ascii_of_nat (97 + n)) "") 7 3).
  reflexivity.
Defined.

(** ** The simple generator *)

Lemma concat_empty_cons x l :
  String.concat "" (x :: l) = (x ++ String.concat "" l)%string.
Proof.
  destruct l; cbn [String.concat].
  - rewrite append_empty_r. reflexivity.
  - reflexivity.
Qed.

Section SimpleFile.
Import Generator.
Variable row : nat -> string.

Lemma simple_rows_all num_rows j : forall k file,
  (num_rows / 10 =? 0)%Z = false ->
  simple_rows row num_rows (map Z.of_nat (seq k j)) file
  = ((file ++ String.concat "" (map (fun i => row i ++ LF) (seq k j)))%string,
     inr tt).
Proof.
  intros k file H. revert k file.
  induction j as [| j IH]; intros k file; cbn [seq map simple_rows].
  - cbn [String.concat]. rewrite append_empty_r. reflexivity.
  - rewrite H, IH, Nat2Z.id, concat_empty_cons, !append_assoc_s. reflexivity.
Qed.
End SimpleFile.

(** [generate_simple_file] cannot write fewer than ten rows: for a count
    from 1 to 9 the progress test divides by [num_rows // 10 = 0] right
    after the first row is written, and the run ends with
    [ZeroDivisionError], one row in the file.  From ten rows on every row
    is written, each followed by a line feed; for a count of zero or less
    nothing is. *)
Theorem simple_file_needs_ten_rows (row : nat -> string) (num_rows : Z) :
  ((1 <= num_rows <= 9)%Z ->
     Generator.generate_simple_file row num_rows
     = ((row 0%nat ++ Generator.LF)%string, inl Generator.ZeroDivisionError)) /\
  ((10 <= num_rows)%Z ->
     Generator.generate_simple_file row num_rows
     = (String.concat "" (map (fun i => row i ++ Generator.LF)%string
                            (seq 0 (Z.to_nat num_rows))),
        inr tt)) /\
  ((num_rows <= 0)%Z ->
     Generator.generate_simple_file row num_rows = ("", inr tt)).
Proof.
  unfold Generator.generate_simple_file, Generator.range. repeat split; intros H.
  - destruct (Z.to_nat num_rows) as [| n] eqn:E; [lia |].
    cbn [seq map Generator.simple_rows].
    rewrite Z.div_small by lia. reflexivity.
  - rewrite simple_rows_all; [reflexivity |].
    apply Z.eqb_neq. pose proof (Z.div_le_lower_bound num_rows 10 1). lia.
  - replace (Z.to_nat num_rows) with 0%nat by lia. reflexivity.
Qed.

(** Five rows asked for: one written, then the error. *)
Lemma simple_file_needs_ten_rows_witness :
  Generator.generate_simple_file (fun n => String (ascii_of_nat (97 + n)) "") 5
  = (("a" ++ Generator.LF)%string, inl Generator.ZeroDivisionError).
Proof.
  apply (proj1 (simple_file_needs_ten_rows
                  (fun n => String (ascii_of_nat (97 + n)) "") 5)).
  lia.
Defined.

(** The hour [generate_datetime_str] draws lies between 9 and 20 whatever
    the draw, and over the hundred values [randint(1, 100)] can return
    each hour [9 + i] comes out for exactly [hour_weights[i]] of them: the
    weights are percentages. *)
Theorem datetime_str_hour_distribution :
  (forall r, (9 <= Generator.datetime_str_hour r <= 20)%Z) /\
  map (fun i => Z.of_nat (List.length
                  (filter (fun r => (Generator.datetime_str_hour r =? 9 + i)%Z)
                     (map (fun n => Z.of_nat (S n)) (seq 0 100)))))
      (Generator.range 12)
  = Generator.simple_hour_weights.
Proof.
  split.
  - intros r. unfold Generator.datetime_str_hour, Generator.simple_hour_weights.
    cbn [Generator.hour_scan].
    repeat match goal with
           | |- context [if ?b then _ else _] => destruct b
           end; lia.
  - vm_compute. reflexivity.
Qed.

(** ** Whitespace before the key *)

Section KeyBlanks.
Context {B : Builtins}.

(** The loop bodies only look at the fields of the line. *)
Lemma bodies_read_fields l1 l2 :
  fields l1 = fields l2 ->
  (forall st, Exercise3.body st l1 = Exercise3.body st l2) /\
  (forall st, Exercise4.body st l1 = Exercise4.body st l2) /\
  (forall st, Exercise5.body st l1 = Exercise5.body st l2) /\
  (forall st, Exercise6.body st l1 = Exercise6.body st l2).
Proof.
  intros E. unfold Exercise3.body, Exercise4.body, Exercise5.body, Exercise6.body.
  rewrite E. repeat split.
Qed.
End KeyBlanks.

(** The reducers read a key without the whitespace in front of it: a pair
    line whose key is preceded by blanks is treated by every reducer as
    the line without them, so two keys that differ only by leading
    whitespace are one key to the reducers. *)
Theorem leading_blanks_dropped_from_key {B : Builtins} (ws k v : string) :
  lstrip ws = "" ->
  contains tab k = false -> contains tab v = false ->
  starts_nonspace k = true -> ends_nonspace v = true ->
  fields (as_line (ws ++ k ++ String tab v)) = [k; v] /\
  (forall st, Exercise3.body st (as_line (ws ++ k ++ String tab v))
              = Exercise3.body st (as_line (k ++ String tab v))) /\
  (forall st, Exercise4.body st (as_line (ws ++ k ++ String tab v))
              = Exercise4.body st (as_line (k ++ String tab v))) /\
  (forall st, Exercise5.body st (as_line (ws ++ k ++ String tab v))
              = Exercise5.body st (as_line (k ++ String tab v))) /\
  (forall st, Exercise6.body st (as_line (ws ++ k ++ String tab v))
              = Exercise6.body st (as_line (k ++ String tab v))).
Proof.
  intros Hw Hk Hv Sk Ev.
  assert (fields (as_line (ws ++ k ++ String tab v))
          = fields (as_line (k ++ String tab v))) as E.
  { unfold fields, as_line. rewrite append_assoc_s.
    rewrite (strip_blank_prefix _ _ Hw). reflexivity. }
  split.
  - rewrite E. apply pair_fields; assumption.
  - apply bodies_read_fields, E.
Qed.

(** The keys [ Ropa] and [Ropa]. *)
Lemma leading_blanks_dropped_from_key_witness :
  fields (as_line (" " ++ "Ropa" ++ String tab "5.0")) = ["Ropa"; "5.0"].
Proof.
  apply (leading_blanks_dropped_from_key (B := decimal) " " "Ropa" "5.0");
    reflexivity.
Defined.

(** ** From the generator to the mappers *)

Lemma row_fields d s i c p :
  contains tab d = false -> contains tab s = false ->
  contains tab i = false -> contains tab c = false ->
  contains tab p = false ->
  starts_nonspace d = true -> ends_nonspace p = true ->
  forall line,
    line = format_row d s i c p \/ line = as_line (format_row d s i c p) ->
    strip line <> "" /\ split tab (strip line) = [d; s; i; c; p].
Proof.
  intros Hd Hs Hi Hc Hp Sd Ep line [-> | ->].
  - assert (strip (format_row d s i c p)
            = (d ++ String tab (s ++ String tab (i ++ String tab (c ++ String tab p))))%string)
      as E.
    { apply (strip_trimmed (d ++ String tab (s ++ String tab (i ++ String tab (c ++ String tab p))))).
      - apply starts_nonspace_app, Sd.
      - apply ends_nonspace_app.
        change (String tab (s ++ String tab (i ++ String tab (c ++ String tab p))))
          with (String tab "" ++ (s ++ String tab "" ++ (i ++ String tab "" ++ (c ++ String tab "" ++ p))))%string.
        repeat apply ends_nonspace_app. exact Ep. }
    rewrite E. split.
    + destruct d; [discriminate | discriminate].
    + rewrite !split_app by assumption. rewrite (split_without _ _ Hp). reflexivity.
  - exact (record_fields d s i c p Hd Hs Hi Hc Hp Sd Ep).
Qed.

Section RowsToMappers.
Context {B : Builtins}.

Lemma mapper2_on_fields line d s item cost p f :
  strip line <> "" -> split tab (strip line) = [d; s; item; cost; p] ->
  py_float cost = Some f ->
  Exercise2.mapper [line] = ([(item ++ String tab cost)%string], inr tt).
Proof.
  intros N F P. unfold Exercise2.mapper. cbn [for_each].
  unfold Exercise2.mapper_body. apply String.eqb_neq in N.
  rewrite N, F. cbn [List.length Nat.eqb negb]. rewrite P. reflexivity.
Qed.

Lemma mapper5_on_fields line date hh rest s item cost p f :
  strip line <> "" ->
  split tab (strip line)
  = [(date ++ String space (hh ++ String colon rest))%string; s; item; cost; p] ->
  contains space date = false ->
  contains space hh = false -> contains colon hh = false ->
  py_float cost = Some f ->
  Exercise5.mapper [line] = ([(hh ++ String tab cost)%string], inr tt).
Proof.
  intros N F Sd Sh Ch P.
  destruct (timestamp_hour date hh rest Sd Sh Ch) as (time & more & E1 & E2).
  unfold Exercise5.mapper. cbn [for_each]. unfold Exercise5.mapper_body.
  apply String.eqb_neq in N. rewrite N, F. cbn [List.length Nat.eqb negb].
  rewrite E1. cbn [nth_error]. cbn [nth_error] in E2. rewrite E2, P. reflexivity.
Qed.
End RowsToMappers.

Lemma clean_tables :
  forallb clean_field Generator.cities = true /\
  forallb clean_field categories = true /\
  forallb clean_field
    (Generator.low_methods ++ Generator.high_methods ++ Generator.medium_methods)
  = true.
Proof. repeat split. Qed.

Lemma clean_field_parts s :
  clean_field s = true ->
  contains tab s = false /\ starts_nonspace s = true /\ ends_nonspace s = true.
Proof.
  unfold clean_field. intros H. apply andb_prop in H. destruct H as [H He].
  apply andb_prop in H. destruct H as [Ht Hs]. apply negb_true_iff in Ht. auto.
Qed.

(** Every row the full-featured generator can write is taken by both
    mappers, with or without its line feed: for a city, a category and a
    payment method of the generator's tables, a timestamp made of a date,
    a space, an hour, a colon and minutes, and a price rendered as a
    tab-free string [float] accepts, the item mapper prints the category
    with the price and the hour mapper the hour with the price. *)
Theorem generated_row_mapped {B : Builtins}
    (date hh mm city category price payment : string) (f : float) :
  In city Generator.cities ->
  In category categories ->
  In payment (Generator.low_methods ++ Generator.high_methods
              ++ Generator.medium_methods) ->
  contains tab date = false -> contains space date = false ->
  starts_nonspace date = true ->
  contains tab hh = false -> contains space hh = false ->
  contains colon hh = false ->
  contains tab mm = false ->
  contains tab price = false -> py_float price = Some f ->
  forall line,
    line = format_row (date ++ String space (hh ++ String colon mm))
             city category price payment \/
    line = as_line (format_row (date ++ String space (hh ++ String colon mm))
                      city category price payment) ->
    Exercise2.mapper [line] = ([(category ++ String tab price)%string], inr tt) /\
    Exercise5.mapper [line] = ([(hh ++ String tab price)%string], inr tt).
Proof.
  intros Ic Ig Ip Td Sd Nd Th Sh Ch Tm Tp P line Hl.
  destruct clean_tables as (C1 & C2 & C3). rewrite forallb_forall in C1, C2, C3.
  destruct (clean_field_parts _ (C1 _ Ic)) as (Tc & _ & _).
  destruct (clean_field_parts _ (C2 _ Ig)) as (Tg & _ & _).
  destruct (clean_field_parts _ (C3 _ Ip)) as (Ty & _ & Ey).
  assert (contains tab (date ++ String space (hh ++ String colon mm)) = false) as Tdt.
  { rewrite contains_app, Td. cbn [contains orb].
    change (Ascii.eqb space tab) with false. rewrite contains_app, Th.
    cbn [contains orb]. change (Ascii.eqb colon tab) with false. exact Tm. }
  destruct (row_fields _ city category price payment Tdt Tc Tg Tp Ty
              (starts_nonspace_app _ _ Nd) Ey line Hl) as [N F].
  split.
  - exact (mapper2_on_fields line _ _ _ _ _ f N F P).
  - exact (mapper5_on_fields line date hh mm _ _ _ _ f N F Sd Sh Ch P).
Qed.

(** A row of the last line of a file: no line feed. *)
Lemma generated_row_mapped_witness :
  Exercise2.mapper (B := decimal)
    [format_row "2022-11-05 18:07" "Mondonhedo" "Moda mujer" "129.99" "paypal"]
  = ([("Moda mujer" ++ String tab "129.99")%string], inr tt) /\
  Exercise5.mapper (B := decimal)
    [format_row "2022-11-05 18:07" "Mondonhedo" "Moda mujer" "129.99" "paypal"]
  = ([("18" ++ String tab "129.99")%string], inr tt).
Proof.
  apply (generated_row_mapped (B := decimal) "2022-11-05" "18" "07" "Mondonhedo"
           "Moda mujer" "129.99" "paypal" 129.99%float);
    try reflexivity;
    [ unfold Generator.cities; simpl; tauto
    | unfold categories; simpl; tauto
    | simpl; tauto
    | left; reflexivity ].
Defined.
